(** * koop-auth-direct-file: token issuing and checking, verified against its
    description

    The package exports one function, [auth], which stores its arguments in
    module-level variables and hands back [authenticationSpecification],
    [authenticate] and [authorize].  [src/index.js] holds two editions of the
    module: the first takes Express request objects and knows the [useHttp]
    option ([RequestApi] below), the second takes the user name, the password
    and the token directly ([DirectApi]).

    JavaScript values are embedded as the inductive type [value]; module-level
    variables are a record threaded through a small state-and-exception monad;
    a promise is the state it settles in, and [resolve]/[reject] only act on a
    pending promise, as in the language.  A number is a rational, [NaN] or
    an infinity; the arithmetic operations round their exact result to the
    nearest double, ties to even, as IEEE 754 has it.  The sign of zero is
    not kept. *)

From Stdlib Require Import ZArith QArith Qround Bool String Ascii List Lia.
From Stdlib Require Qcanon.
Import ListNotations.
Local Open Scope string_scope.
Local Open Scope Z_scope.

(** ** JavaScript values *)

Module Js.

Inductive number :=
| Fin (q : Q)
| NaN
| Infinity (negative : bool).

#[warnings="-register-all"] Inductive value :=
| VUndefined
| VNull
| VBool (b : bool)
| VNum (n : number)
| VStr (s : string)
| VObj (fields : list (string * value)).

(** The number with integer value [z]. *)
Definition Int (z : Z) : value := VNum (Fin (inject_Z z)).

(** ToBoolean. *)
Definition truthy (v : value) : bool :=
  match v with
  | VUndefined | VNull => false
  | VBool b => b
  | VNum (Fin q) => negb (Qnum q =? 0)
  | VNum NaN => false
  | VNum (Infinity _) => true
  | VStr s => negb (String.eqb s "")
  | VObj _ => true
  end.

(** The [typeof] operator. *)
Definition typeof (v : value) : string :=
  match v with
  | VUndefined => "undefined"
  | VNull => "object"
  | VBool _ => "boolean"
  | VNum _ => "number"
  | VStr _ => "string"
  | VObj _ => "object"
  end.

(** [a || b] and [a && b] return one of their operands. *)
Definition js_or (a b : value) : value := if truthy a then a else b.

(** [Number.isInteger]: a finite number without fractional part. *)
Definition isInteger (v : value) : bool :=
  match v with
  | VNum (Fin q) => Qnum q mod Zpos (Qden q) =? 0
  | _ => false
  end.

(** The integer a value denotes, when [Number.isInteger] holds of it. *)
Definition integer_value (v : value) : option Z :=
  if isInteger v then
    match v with
    | VNum (Fin q) => Some (Qnum q / Zpos (Qden q))
    | _ => None
    end
  else None.

(** [a < b] and [a >= b] on numbers; every comparison with [NaN] is false. *)
Definition number_lt (a b : number) : bool :=
  match a, b with
  | NaN, _ | _, NaN => false
  | Fin x, Fin y => Qnum x * Zpos (Qden y) <? Qnum y * Zpos (Qden x)
  | Infinity na, Infinity nb => na && negb nb
  | Infinity na, Fin _ => na
  | Fin _, Infinity nb => negb nb
  end.

Definition number_ge (a b : number) : bool :=
  match a, b with
  | NaN, _ | _, NaN => false
  | _, _ => negb (number_lt a b)
  end.

(** [a < b] for operands that are numbers already; the module only compares
    a value that passed [Number.isInteger] with a literal. *)
Definition js_lt (a b : value) : bool :=
  match a, b with
  | VNum x, VNum y => number_lt x y
  | _, _ => false
  end.

(** *** Arithmetic on doubles *)

(** [num / den] rounded to the nearest integer, ties to even, for
    [0 <= num] and [0 < den]. *)
Definition nearest_even (num den : Z) : Z :=
  let m0 := num / den in
  let r := num mod den in
  if 2 * r <? den then m0
  else if den <? 2 * r then m0 + 1
  else if Z.even m0 then m0 else m0 + 1.

(** The exponent [k] with [2^k <= a / d < 2^(k+1)], for [0 < a] and
    [0 < d]. *)
Definition binade (a d : Z) : Z :=
  let k0 := Z.log2 a - Z.log2 d in
  if (if 0 <=? k0 then d * 2 ^ k0 <=? a else d <=? a * 2 ^ (- k0))
  then k0 else k0 - 1.

(** The double nearest to the rational [q]: a significand of 53 bits, an
    exponent of at least -1074, and infinity from [2^1024] on. *)
Definition round_double (q : Q) : number :=
  let n := Qnum q in
  let d := Zpos (Qden q) in
  if n =? 0 then Fin 0
  else
    let a := Z.abs n in
    let e := Z.max (binade a d - 52) (-1074) in
    if 0 <=? e then
      let m := nearest_even a (d * 2 ^ e) in
      if 2 ^ 1024 <=? m * 2 ^ e then Infinity (n <? 0)
      else Fin (inject_Z (Z.sgn n * (m * 2 ^ e)))
    else
      let m := nearest_even (a * 2 ^ (- e)) d in
      Fin (Qred (Z.sgn n * m # Z.to_pos (2 ^ (- e)))).

(** [a * b] and [a + b] on numbers. *)
Definition number_mul (a b : number) : number :=
  match a, b with
  | NaN, _ | _, NaN => NaN
  | Fin x, Fin y => round_double (x * y)
  | Infinity s, Fin y | Fin y, Infinity s =>
      if Qnum y =? 0 then NaN else Infinity (xorb s (Qnum y <? 0))
  | Infinity s, Infinity t => Infinity (xorb s t)
  end.

Definition number_add (a b : number) : number :=
  match a, b with
  | NaN, _ | _, NaN => NaN
  | Fin x, Fin y => round_double (x + y)
  | Infinity s, Fin _ | Fin _, Infinity s => Infinity s
  | Infinity s, Infinity t => if Bool.eqb s t then Infinity s else NaN
  end.

(** [a / d] for a positive integer literal [d]. *)
Definition number_over (a : number) (d : positive) : number :=
  match a with
  | Fin x => round_double (x / inject_Z (Zpos d))
  | other => other
  end.

(** [Math.floor]. *)
Definition number_floor (a : number) : number :=
  match a with
  | Fin x => Fin (inject_Z (Qfloor x))
  | other => other
  end.

(** The double with integer value [z], for [z] a double. *)
Definition num (z : Z) : number := Fin (inject_Z z).

(** ToNumber, on the values that are not strings or objects. *)
Definition to_number (v : value) : option number :=
  match v with
  | VUndefined => Some NaN
  | VNull => Some (num 0)
  | VBool b => Some (num (if b then 1 else 0))
  | VNum n => Some n
  | VStr _ | VObj _ => None
  end.

(** Own properties of an object, first binding first. *)
Fixpoint assoc (k : string) (fields : list (string * value)) : option value :=
  match fields with
  | [] => None
  | (k', v) :: rest => if String.eqb k' k then Some v else assoc k rest
  end.

Fixpoint update (k : string) (v : value) (fields : list (string * value))
  : list (string * value) :=
  match fields with
  | [] => [(k, v)]
  | (k', v') :: rest =>
      if String.eqb k' k then (k, v) :: rest else (k', v') :: update k v rest
  end.

(** [new Error(message)]. *)
Definition new_Error (message : string) : value :=
  VObj [("message", VStr message)].

(** [obj.k = v]; assigning a property of a primitive is ignored. *)
Definition set_property (obj : value) (k : string) (v : value) : value :=
  match obj with
  | VObj fields => VObj (update k v fields)
  | _ => obj
  end.

(** The [TypeError] raised by reading a property of [undefined] or [null];
    the wording of its message is the engine's. *)
Definition type_error (base : value) (k : string) : value :=
  VObj [("name", VStr "TypeError");
        ("message", VStr ("Cannot read property '" ++ k ++ "' of "
                          ++ match base with VNull => "null" | _ => "undefined" end))].

(** What a piece of code does: it returns, it throws, or it leaves the
    fragment of the language that is modelled (arithmetic on a string or an
    object). *)
Inductive outcome (A : Type) :=
| Returned (a : A)
| Thrown (e : value)
| Unmodelled.
Arguments Returned {A} a.
Arguments Thrown {A} e.
Arguments Unmodelled {A}.

(** [base.k].  None of the property names the module reads ([query], [body],
    [headers], [username], [password], [token], [authorization], [useHttp],
    [tokenExpirationMinutes]) lives on a prototype, so on a primitive or on
    an object without that own property the read gives [undefined]. *)
Definition get (base : value) (k : string) : outcome value :=
  match base with
  | VUndefined | VNull => Thrown (type_error base k)
  | VObj fields =>
      Returned (match assoc k fields with Some v => v | None => VUndefined end)
  | _ => Returned VUndefined
  end.

(** [base.k] where the read is known not to throw. *)
Definition prop (base : value) (k : string) : value :=
  match get base k with
  | Returned v => v
  | _ => VUndefined
  end.

(** *** Promises *)

Inductive promise :=
| Pending
| Fulfilled (v : value)
| Rejected (e : value).

(** The two functions handed to an executor: the first call settles the
    promise, every later call is ignored. *)
Definition resolve (v : value) (p : promise) : promise :=
  match p with
  | Pending => Fulfilled v
  | _ => p
  end.

Definition reject (e : value) (p : promise) : promise :=
  match p with
  | Pending => Rejected e
  | _ => p
  end.

(** *** Module-level state *)

Definition M (S A : Type) : Type := S -> outcome A * S.

Definition ret {S A} (a : A) : M S A := fun st => (Returned a, st).

Definition bind {S A B} (m : M S A) (f : A -> M S B) : M S B :=
  fun st =>
    match m st with
    | (Returned a, st') => f a st'
    | (Thrown e, st') => (Thrown e, st')
    | (Unmodelled, st') => (Unmodelled, st')
    end.

Definition throw {S A} (e : value) : M S A := fun st => (Thrown e, st).

Definition lift {S A} (o : outcome A) : M S A := fun st => (o, st).

Definition read {S} (var : S -> value) : M S value :=
  fun st => (Returned (var st), st).

Definition write {S} (assign : value -> S -> S) (v : value) : M S unit :=
  fun st => (Returned tt, assign v st).

(** [a && b], with [b] evaluated only when [a] is truthy. *)
Definition js_and {S} (a : value) (b : M S value) : M S value :=
  if truthy a then b else ret a.

(** [new Promise(executor)]: the executor runs at once, starting from a
    pending promise; an exception it throws rejects the promise.  In this
    module every throwing expression comes before the first call of
    [resolve] or [reject], so the promise is still pending then. *)
Definition new_Promise {S} (executor : promise -> M S promise) : M S promise :=
  fun st =>
    match executor Pending st with
    | (Thrown e, st') => (Returned (reject e Pending), st')
    | other => other
    end.

End Js.

Import Js.

Declare Scope js_scope.
Delimit Scope js_scope with js.
Notation "x <- m ;; k" := (bind m (fun x => k))
  (at level 61, m at next level, right associativity) : js_scope.
Notation "' pat <- m ;; k" := (bind m (fun x => match x with pat => k end))
  (at level 61, pat pattern, m at next level, right associativity) : js_scope.
Notation "m ;; k" := (bind m (fun _ => k))
  (at level 61, right associativity) : js_scope.

(** The double quote, for messages that contain one. *)
Definition dquote : string := String (ascii_of_nat 34) EmptyString.

Definition useHttp_message : string :=
  dquote ++ "useHttp" ++ dquote ++ " must be a boolean".

Definition tokenExpirationMinutes_message : string :=
  dquote ++ "tokenExpirationMinutes" ++ dquote ++ " must be an integer >= 5".

(** What [auth] returns: the object tagged ['auth'] (its three other members
    are the functions modelled below). *)
Definition handle : value := VObj [("type", VStr "auth")].

Local Open Scope js_scope.

(** [req && req.k1 && req.k1.k2], the guard the request edition puts before
    every read of a request field. *)
Definition guarded {S} (req : value) (k1 k2 : string) : M S value :=
  js_and req (q <- lift (get req k1) ;; js_and q (lift (get q k2))).

(** The value of that guard, as a function of the request. *)
Definition field (req : value) (k1 k2 : string) : value :=
  if truthy req
  then let q := prop req k1 in if truthy q then prop q k2 else q
  else req.

(** [req.k1.k2] *)
Definition get2 {S} (req : value) (k1 k2 : string) : M S value :=
  q <- lift (get req k1) ;; lift (get q k2).

(** The number a module variable is read as, for the arithmetic on it. *)
Definition numeric {S} (v : value) : M S number :=
  match to_number v with
  | Some n => ret n
  | None => lift Unmodelled
  end.

(** Whether a string holds the character of code 0. *)
Fixpoint has_nul (s : string) : bool :=
  match s with
  | EmptyString => false
  | String c rest => Ascii.eqb c zero || has_nul rest
  end.

(** The [TypeError] Node throws for an argument it refuses, with its code;
    the message, which describes the argument, is left out. *)
Definition node_error (code : string) : value :=
  VObj [("name", VStr "TypeError"); ("code", VStr code)].

(** [fs.stat (path, callback)], as far as the caller sees it (Node 10 and
    later): the path is validated at once, and a path that is not a string,
    or a string with a null byte, is refused by an exception; otherwise the
    callback is only registered, and runs after the caller has returned.
    The objects of [value] are plain ones, which [fs.stat] refuses as it
    does a number; a [Buffer] or a [URL], which it takes, is not among the
    values embedded here. *)
Definition fs_stat {S} (path : value) : M S unit :=
  match path with
  | VStr s =>
      if has_nul s then throw (node_error "ERR_INVALID_ARG_VALUE") else ret tt
  | _ => throw (node_error "ERR_INVALID_ARG_TYPE")
  end.

(** ** The signing library

    [jsonwebtoken] is not part of the repository. *)

Module Jwt.

(** [jwt.sign] is called without a callback: it returns the token or
    throws. *)
Inductive signing :=
| Signed (token : string)
| Failed (err : value).

(** Modelled from the spec: the signing primitive, "sign(claims, secret) ->
    token string (HMAC-based)", and the two checks its "verify(token, secret)
    -> claims or throws/fails on invalid signature or expiry" is made of:
    reading the claims out of a well-formed token, and checking the signature
    against a secret. *)
Record lib := {
  sign : value -> value -> signing;
  decode : value -> option value;
  signature_ok : value -> value -> bool
}.

Definition JsonWebTokenError (message : string) : value :=
  VObj [("name", VStr "JsonWebTokenError"); ("message", VStr message)].

Definition TokenExpiredError : value :=
  VObj [("name", VStr "TokenExpiredError"); ("message", VStr "jwt expired")].

(** The clock of the library counts whole seconds. *)
Definition clock (now : Z) : number := Fin (inject_Z (now / 1000)).

(** Modelled from the spec: "expiresAtEpochSeconds has not passed" at [now]
    (milliseconds).  No [exp] claim means no expiry, a numeric one must lie
    after the clock, anything else is refused. *)
Definition exp_ok (claims : value) (now : Z) : bool :=
  match prop claims "exp" with
  | VUndefined => true
  | VNum e => negb (number_ge (clock now) e)
  | _ => false
  end.

(** Modelled from the spec: the verification primitive; what it hands to its
    callback, as the pair (err, decoded).  "On verification failure (bad
    signature, malformed token, or expired)" it reports an error object. *)
Definition verify (jwt : lib) (token secret : value) (now : Z) : value * value :=
  match decode jwt token with
  | None => (JsonWebTokenError "jwt malformed", VUndefined)
  | Some claims =>
      if signature_ok jwt token secret then
        if exp_ok claims now then (VNull, claims)
        else (TokenExpiredError, VUndefined)
      else (JsonWebTokenError "invalid signature", VUndefined)
  end.

End Jwt.

(** The two modules [index.js] requires: the signing library and
    [./validate-credentials], which is given by the state its promise
    settles in ([Pending] when it never does). *)
Record collaborators := {
  jwt : Jwt.lib;
  validateCredentials : value -> value -> value -> promise
}.

(** ** First edition: request objects and the [useHttp] option *)

Module RequestApi.

Record state := {
  _useHttp : value;
  _tokenExpirationMinutes : value;
  _secret : value;
  _userStoreFilePath : value
}.

(** [let] without initialiser. *)
Definition unconfigured : state :=
  {| _useHttp := VUndefined; _tokenExpirationMinutes := VUndefined;
     _secret := VUndefined; _userStoreFilePath := VUndefined |}.

Definition set_useHttp (v : value) (st : state) : state :=
  {| _useHttp := v; _tokenExpirationMinutes := _tokenExpirationMinutes st;
     _secret := _secret st; _userStoreFilePath := _userStoreFilePath st |}.

Definition set_tokenExpirationMinutes (v : value) (st : state) : state :=
  {| _useHttp := _useHttp st; _tokenExpirationMinutes := v;
     _secret := _secret st; _userStoreFilePath := _userStoreFilePath st |}.

Definition set_secret (v : value) (st : state) : state :=
  {| _useHttp := _useHttp st; _tokenExpirationMinutes := _tokenExpirationMinutes st;
     _secret := v; _userStoreFilePath := _userStoreFilePath st |}.

Definition set_userStoreFilePath (v : value) (st : state) : state :=
  {| _useHttp := _useHttp st; _tokenExpirationMinutes := _tokenExpirationMinutes st;
     _secret := _secret st; _userStoreFilePath := v |}.

Definition TOKEN_EXPIRATION_MINUTES : value := Int 60.

(** [auth (secret, userStoreFilePath, options = {})], lines 18-42.  The
    callback given to [fs.stat] runs after [auth] has returned and touches
    none of the variables; what it throws then reaches no caller. *)
Definition auth (secret userStoreFilePath options : value) : M state value :=
  let options := match options with VUndefined => VObj [] | _ => options end in
  fs_stat userStoreFilePath ;;
  write set_secret secret ;;
  write set_userStoreFilePath userStoreFilePath ;;
  useHttp <- lift (get options "useHttp") ;;
  (if truthy useHttp && negb (String.eqb (typeof useHttp) "boolean")
   then throw (new_Error useHttp_message) else ret tt) ;;
  write set_useHttp (js_or useHttp (VBool false)) ;;
  minutes <- lift (get options "tokenExpirationMinutes") ;;
  (if truthy minutes && (negb (isInteger minutes) || js_lt minutes (Int 5))
   then throw (new_Error tokenExpirationMinutes_message) else ret tt) ;;
  write set_tokenExpirationMinutes (js_or minutes TOKEN_EXPIRATION_MINUTES) ;;
  ret handle.

(** [authenticationSpecification ()], lines 48-52. *)
Definition authenticationSpecification : M state value :=
  useHttp <- read _useHttp ;;
  ret (VObj [("useHttp", useHttp)]).

(** Lines 61-67 of [authenticate]: the user name and the password, from the
    query string first and from the body otherwise. *)
Definition request_credentials (req : value) : M state (value * value) :=
  c <- guarded req "query" "username" ;;
  username <- (if truthy c then get2 req "query" "username" else ret VUndefined) ;;
  c <- guarded req "query" "password" ;;
  password <- (if truthy c then get2 req "query" "password" else ret VUndefined) ;;
  c <- js_and (VBool (negb (truthy username))) (get2 req "body" "username") ;;
  username <- (if truthy c then get2 req "body" "username" else ret username) ;;
  c <- js_and (VBool (negb (truthy password))) (get2 req "body" "password") ;;
  password <- (if truthy c then get2 req "body" "password" else ret password) ;;
  ret (username, password).

Definition invalid_credentials : value :=
  set_property (new_Error "Invalid credentials.") "code" (Int 401).

(** [authenticate (req)], lines 59-89; [now] is what [Date.now()] returns
    when the callback of [then] runs, an integer that is a double, and no
    call of [auth] comes between the call and its callback.  [reject] does
    not leave the callback: after it the token is still signed and [resolve]
    is still called.  The handler of [catch] gets the rejection of the
    collaborator as well as what the callback throws, which can only come
    from [jwt.sign]. *)
Definition authenticate (env : collaborators) (now : Z) (req : value)
  : M state promise :=
  new_Promise (fun p =>
    '(username, password) <- request_credentials req ;;
    path <- read _userStoreFilePath ;;
    match validateCredentials env username password path with
    | Fulfilled valid =>
        let p := if negb (truthy valid) then reject invalid_credentials p else p in
        minutes <- read _tokenExpirationMinutes ;;
        minutes <- numeric minutes ;;
        let expires :=
          number_add (num now) (number_mul (number_mul minutes (num 60)) (num 1000)) in
        secret <- read _secret ;;
        match Jwt.sign (jwt env)
                (VObj [("exp", VNum (number_floor (number_over expires 1000)));
                       ("sub", username)]) secret with
        | Jwt.Signed token =>
            let json := VObj [("token", VStr token); ("expires", VNum expires)] in
            ret (resolve json p)
        | Jwt.Failed err => ret (reject err p)
        end
    | Rejected err => ret (reject err p)
    | Pending => ret p
    end).

(** Lines 99-101 of [authorize]: the token of the query string, overwritten
    by the authorization header when there is one. *)
Definition request_token (req : value) : M state value :=
  c <- guarded req "query" "token" ;;
  token <- (if truthy c then get2 req "query" "token" else ret VUndefined) ;;
  c <- guarded req "headers" "authorization" ;;
  token <- (if truthy c then get2 req "headers" "authorization" else ret token) ;;
  ret token.

Definition no_authorization_token : value :=
  set_property (new_Error "No authorization token.") "code" (Int 401).

(** [authorize (req)], lines 96-118; [now] is the time at which the library
    checks the expiry. *)
Definition authorize (env : collaborators) (now : Z) (req : value)
  : M state promise :=
  new_Promise (fun p =>
    token <- request_token req ;;
    let p := if negb (truthy token) then reject no_authorization_token p else p in
    secret <- read _secret ;;
    let '(err, decoded) := Jwt.verify (jwt env) token secret now in
    let p := if truthy err then reject (set_property err "code" (Int 401)) p else p in
    ret (resolve decoded p)).

End RequestApi.

(** ** Second edition: user name, password and token passed directly *)

Module DirectApi.

Record state := {
  _tokenExpirationMinutes : value;
  _secret : value;
  _userStoreFilePath : value
}.

Definition unconfigured : state :=
  {| _tokenExpirationMinutes := VUndefined; _secret := VUndefined;
     _userStoreFilePath := VUndefined |}.

Definition set_tokenExpirationMinutes (v : value) (st : state) : state :=
  {| _tokenExpirationMinutes := v; _secret := _secret st;
     _userStoreFilePath := _userStoreFilePath st |}.

Definition set_secret (v : value) (st : state) : state :=
  {| _tokenExpirationMinutes := _tokenExpirationMinutes st; _secret := v;
     _userStoreFilePath := _userStoreFilePath st |}.

Definition set_userStoreFilePath (v : value) (st : state) : state :=
  {| _tokenExpirationMinutes := _tokenExpirationMinutes st; _secret := _secret st;
     _userStoreFilePath := v |}.

Definition TOKEN_EXPIRATION_MINTUES : value := Int 60.

(** [auth (secret, userStoreFilePath, options = {})], lines 136-155: here the
    variable is assigned first and checked afterwards. *)
Definition auth (secret userStoreFilePath options : value) : M state value :=
  let options := match options with VUndefined => VObj [] | _ => options end in
  fs_stat userStoreFilePath ;;
  write set_secret secret ;;
  write set_userStoreFilePath userStoreFilePath ;;
  minutes <- lift (get options "tokenExpirationMinutes") ;;
  write set_tokenExpirationMinutes (js_or minutes TOKEN_EXPIRATION_MINTUES) ;;
  minutes <- read _tokenExpirationMinutes ;;
  (if negb (isInteger minutes) || js_lt minutes (Int 5)
   then throw (new_Error tokenExpirationMinutes_message) else ret tt) ;;
  ret handle.

(** [getAuthenticationSpecification (providerNamespace) ()], lines 161-168:
    the function it returns, called. *)
Definition getAuthenticationSpecification (providerNamespace : value) : M state value :=
  ret (VObj [("provider", providerNamespace); ("secured", VBool true)]).

Definition invalid_credentials : value :=
  set_property (new_Error "Invalid credentials.") "code" (Int 401).

(** [authenticate (username, password)], lines 176-198. *)
Definition authenticate (env : collaborators) (now : Z) (username password : value)
  : M state promise :=
  new_Promise (fun p =>
    path <- read _userStoreFilePath ;;
    match validateCredentials env username password path with
    | Fulfilled valid =>
        let p := if negb (truthy valid) then reject invalid_credentials p else p in
        minutes <- read _tokenExpirationMinutes ;;
        minutes <- numeric minutes ;;
        let expires :=
          number_add (num now) (number_mul (number_mul minutes (num 60)) (num 1000)) in
        secret <- read _secret ;;
        match Jwt.sign (jwt env)
                (VObj [("exp", VNum (number_floor (number_over expires 1000)));
                       ("sub", username)]) secret with
        | Jwt.Signed token =>
            let json := VObj [("token", VStr token); ("expires", VNum expires)] in
            ret (resolve json p)
        | Jwt.Failed err => ret (reject err p)
        end
    | Rejected err => ret (reject err p)
    | Pending => ret p
    end).

(** [authorize (token)], lines 200-212. *)
Definition authorize (env : collaborators) (now : Z) (token : value)
  : M state promise :=
  new_Promise (fun p =>
    secret <- read _secret ;;
    let '(err, decoded) := Jwt.verify (jwt env) token secret now in
    let p := if truthy err then reject (set_property err "code" (Int 401)) p else p in
    ret (resolve decoded p)).

End DirectApi.

(** ** What is assumed of the signing library *)

(** Signing an integer expiry and a string subject with a non-empty string
    secret returns a token; a token is not the empty string, carries its
    subject and its expiry back and passes the signature check of the secret
    it was signed with; no other secret accepts it (the idealisation of the
    description: "a token signed with a different secret must cause
    authorize() to fail"). *)
Record jwt_contract (j : Jwt.lib) : Prop := {
  sign_returns :
    forall payload key e sub,
      key <> "" ->
      prop payload "exp" = Int e ->
      prop payload "sub" = VStr sub ->
      exists token, Jwt.sign j payload (VStr key) = Jwt.Signed token;
  sign_nonempty :
    forall payload secret token,
      Jwt.sign j payload secret = Jwt.Signed token -> token <> "";
  sign_decode :
    forall payload key token e sub,
      Jwt.sign j payload (VStr key) = Jwt.Signed token ->
      prop payload "exp" = Int e ->
      prop payload "sub" = VStr sub ->
      exists claims,
        Jwt.decode j (VStr token) = Some claims /\
        prop claims "exp" = Int e /\ prop claims "sub" = VStr sub;
  sign_signature_ok :
    forall payload key token,
      Jwt.sign j payload (VStr key) = Jwt.Signed token ->
      Jwt.signature_ok j (VStr token) (VStr key) = true;
  other_secret_rejected :
    forall payload key key' token,
      Jwt.sign j payload (VStr key) = Jwt.Signed token ->
      key <> key' ->
      Jwt.signature_ok j (VStr token) (VStr key') = false
}.

(** ** A signing library that meets the contract

    Tokens are written as two length-prefixed chunks, the expiry and the
    subject, followed by the secret itself, which has to be a non-empty
    string; nothing is hidden, but every law of [jwt_contract] holds, so the
    contract is not vacuous. *)

Module ReferenceJwt.

Fixpoint pos_bits (p : positive) : string :=
  match p with
  | xH => ""
  | xO p => String "0" (pos_bits p)
  | xI p => String "1" (pos_bits p)
  end.

Fixpoint bits_pos (s : string) : option positive :=
  match s with
  | "" => Some xH
  | String c rest =>
      if Ascii.eqb c "0" then option_map xO (bits_pos rest)
      else if Ascii.eqb c "1" then option_map xI (bits_pos rest)
      else None
  end.

Definition print_Z (z : Z) : string :=
  match z with
  | Z0 => "z"
  | Zpos p => String "p" (pos_bits p)
  | Zneg p => String "n" (pos_bits p)
  end.

Definition parse_Z (s : string) : option Z :=
  match s with
  | String c rest =>
      if Ascii.eqb c "z" then match rest with "" => Some 0 | _ => None end
      else if Ascii.eqb c "p" then option_map Zpos (bits_pos rest)
      else if Ascii.eqb c "n" then option_map Zneg (bits_pos rest)
      else None
  | "" => None
  end.

(** [n] in unary, closed by a zero, in front of [rest]. *)
Fixpoint ones (n : nat) (rest : string) : string :=
  match n with
  | O => String "0" rest
  | S n => String "1" (ones n rest)
  end.

Fixpoint count_ones (s : string) : option (nat * string) :=
  match s with
  | String c rest =>
      if Ascii.eqb c "1" then
        match count_ones rest with
        | Some (n, r) => Some (S n, r)
        | None => None
        end
      else if Ascii.eqb c "0" then Some (O, rest)
      else None
  | "" => None
  end.

Fixpoint take (n : nat) (s : string) : option (string * string) :=
  match n with
  | O => Some ("", s)
  | S n =>
      match s with
      | String c rest =>
          match take n rest with
          | Some (a, r) => Some (String c a, r)
          | None => None
          end
      | "" => None
      end
  end.

Definition chunk (s rest : string) : string := ones (String.length s) (s ++ rest).

Definition unchunk (s : string) : option (string * string) :=
  match count_ones s with
  | Some (n, rest) => take n rest
  | None => None
  end.

Definition print_exp (v : value) : string :=
  match integer_value v with
  | Some z => print_Z z
  | None => ""
  end.

Definition print_sub (v : value) : string :=
  match v with
  | VStr s => s
  | _ => ""
  end.

Definition token_text (payload : value) (key : string) : string :=
  chunk (print_exp (prop payload "exp"))
    (chunk (print_sub (prop payload "sub")) key).

Definition no_secret : value := new_Error "secretOrPrivateKey must have a value".

Definition sign (payload secret : value) : Jwt.signing :=
  match secret with
  | VStr key =>
      if String.eqb key "" then Jwt.Failed no_secret
      else Jwt.Signed (token_text payload key)
  | _ => Jwt.Failed no_secret
  end.

(** The three parts of a token: expiry, subject, secret. *)
Definition parts (token : value) : option (string * string * string) :=
  match token with
  | VStr t =>
      match unchunk t with
      | Some (e, rest) =>
          match unchunk rest with
          | Some (s, key) => Some (e, s, key)
          | None => None
          end
      | None => None
      end
  | _ => None
  end.

Definition decode (token : value) : option value :=
  match parts token with
  | Some (e, s, _) =>
      Some (VObj [("exp", match parse_Z e with Some z => Int z | None => VUndefined end);
                  ("sub", VStr s)])
  | None => None
  end.

Definition signature_ok (token secret : value) : bool :=
  match parts token, secret with
  | Some (_, _, key), VStr k => String.eqb key k
  | _, _ => false
  end.

Definition lib : Jwt.lib :=
  {| Jwt.sign := sign; Jwt.decode := decode; Jwt.signature_ok := signature_ok |}.

End ReferenceJwt.

(** ** Reading the request: specification-side functions *)

(** The token lines 99-101 leave in [token]. *)
Definition token_of (req : value) : value :=
  let q := field req "query" "token" in
  let h := field req "headers" "authorization" in
  if truthy h then h else if truthy q then q else VUndefined.

(** The promise [authorize] settles in when [token] is the one handed to the
    verification primitive and nothing was rejected before. *)
Definition verified (j : Jwt.lib) (secret : value) (now : Z) (token : value) : promise :=
  let '(err, decoded) := Jwt.verify j token secret now in
  if truthy err then Rejected (set_property err "code" (Int 401))
  else Fulfilled decoded.

(** "An integer greater than or equal to 5". *)
Definition integer_at_least_5 (v : value) : bool :=
  match integer_value v with
  | Some z => 5 <=? z
  | None => false
  end.

(** The calls a holder of the handle can make, and the state of the
    module-level variables after a run of them. *)
Inductive call :=
| CallAuthenticationSpecification
| CallAuthenticate (now : Z) (req : value)
| CallAuthorize (now : Z) (req : value).

Definition state_after (env : collaborators) (c : call) (st : RequestApi.state)
  : RequestApi.state :=
  match c with
  | CallAuthenticationSpecification => snd (RequestApi.authenticationSpecification st)
  | CallAuthenticate now req => snd (RequestApi.authenticate env now req st)
  | CallAuthorize now req => snd (RequestApi.authorize env now req st)
  end.

Fixpoint run (env : collaborators) (calls : list call) (st : RequestApi.state)
  : RequestApi.state :=
  match calls with
  | [] => st
  | c :: rest => run env rest (state_after env c st)
  end.

(** A token is valid for a secret at a time, with given claims: it is
    well-formed, its signature verifies against the secret and its embedded
    expiry has not passed. *)
Definition token_valid (j : Jwt.lib) (secret : value) (now : Z) (token claims : value)
  : Prop :=
  Jwt.decode j token = Some claims /\
  Jwt.signature_ok j token secret = true /\
  Jwt.exp_ok claims now = true.

(** Code that leaves the module-level variables as it found them. *)
Definition read_only {S A} (m : M S A) : Prop := forall st, snd (m st) = st.

(** The promise the callback of [then] leaves, in both editions: [p] is the
    promise after the check of the verdict, [minutes] the lifetime. *)
Definition issued (j : Jwt.lib) (secret : value) (now : Z) (minutes : number)
    (username : value) (p : promise) : promise :=
  let expires :=
    number_add (num now) (number_mul (number_mul minutes (num 60)) (num 1000)) in
  match Jwt.sign j
          (VObj [("exp", VNum (number_floor (number_over expires 1000)));
                 ("sub", username)]) secret with
  | Jwt.Signed token =>
      resolve (VObj [("token", VStr token); ("expires", VNum expires)]) p
  | Jwt.Failed err => reject err p
  end.

(** A path [fs.stat] takes without an exception: a string without null
    byte. *)
Definition accepted_path (path : value) : bool :=
  match path with
  | VStr s => negb (has_nul s)
  | _ => false
  end.

(** What [auth] does on a path [fs.stat] does not take. *)
Definition refusal (path : value) : outcome value :=
  match path with
  | VStr _ => Thrown (node_error "ERR_INVALID_ARG_VALUE")
  | _ => Thrown (node_error "ERR_INVALID_ARG_TYPE")
  end.

(** The largest magnitude up to which every integer is a double. *)
Definition safe : Z := 2 ^ 53.

(** ** A small installation, to run the functions on *)

Module Sample.

(** A user store with one user; reading the store fails for user [eve]. *)
Definition validate (username password path : value) : promise :=
  match username, password with
  | VStr u, VStr p =>
      if String.eqb u "eve" then Rejected (new_Error "ENOENT: no such file")
      else Fulfilled (VBool (String.eqb u "ann" && String.eqb p "pw"))
  | _, _ => Fulfilled (VBool false)
  end.

Definition env : collaborators :=
  {| jwt := ReferenceJwt.lib; validateCredentials := validate |}.

Definition secret : value := VStr "s3cret".
Definition path : value := VStr "users.json".

(** The variables after [auth (secret, path, {tokenExpirationMinutes: 5})]. *)
Definition configured : RequestApi.state :=
  {| RequestApi._useHttp := VBool false;
     RequestApi._tokenExpirationMinutes := Int 5;
     RequestApi._secret := secret;
     RequestApi._userStoreFilePath := path |}.

Definition direct_configured : DirectApi.state :=
  {| DirectApi._tokenExpirationMinutes := Int 5;
     DirectApi._secret := secret;
     DirectApi._userStoreFilePath := path |}.

Definition lifetime_5 : value := VObj [("tokenExpirationMinutes", Int 5)].



Definition login (username password : string) : value :=
  VObj [("query", VObj [("username", VStr username); ("password", VStr password)])].

(** The token [ann] gets at time 0: it expires at second 300. *)
Definition token : value :=
  VStr (ReferenceJwt.token_text (VObj [("exp", Int 300); ("sub", VStr "ann")]) "s3cret").

Definition with_query_token (t : value) : value :=
  VObj [("query", VObj [("token", t)])].

Definition with_both (query_token header : value) : value :=
  VObj [("query", VObj [("token", query_token)]);
        ("headers", VObj [("authorization", header)])].

End Sample.

(** ** Histories of calls, with configuration among them *)

(** [undefined] or [null]: the values a property read throws on. *)
Definition nullish (v : value) : bool :=
  match v with
  | VUndefined | VNull => true
  | _ => false
  end.

(** What a process does with the module of the first edition: it calls
    [auth], whether that returns or throws, or one of the three functions of
    the handle. *)
Inductive event :=
| Configure (secret path options : value)
| Use (c : call).

Definition step (env : collaborators) (ev : event) (st : RequestApi.state)
  : RequestApi.state :=
  match ev with
  | Configure secret path options => snd (RequestApi.auth secret path options st)
  | Use c => state_after env c st
  end.

Fixpoint history (env : collaborators) (events : list event) (st : RequestApi.state)
  : RequestApi.state :=
  match events with
  | [] => st
  | ev :: rest => history env rest (step env ev st)
  end.

(** The lifetime is unset or an integer of at least 5, the flag is unset or
    a boolean. *)
Definition sound (st : RequestApi.state) : Prop :=
  (RequestApi._tokenExpirationMinutes st = VUndefined \/
   integer_at_least_5 (RequestApi._tokenExpirationMinutes st) = true) /\
  (RequestApi._useHttp st = VUndefined \/
   exists b, RequestApi._useHttp st = VBool b).

(** Code that returns or throws, within the modelled fragment, and leaves
    the module-level variables as it found them. *)
Definition settles {S A} (m : M S A) : Prop :=
  forall st,
    (exists a, m st = (Returned a, st)) \/ (exists e, m st = (Thrown e, st)).

(** * Properties *)

(** ** Values *)

Lemma assoc_update (k : string) (v : value) (fields : list (string * value)) :
  assoc k (update k v fields) = Some v.
Proof.
  induction fields as [|[k' v'] rest IH]; simpl.
  - now rewrite String.eqb_refl.
  - destruct (String.eqb k' k) eqn:E; simpl.
    + now rewrite String.eqb_refl.
    + now rewrite E.
Qed.

Lemma prop_set_property (fields : list (string * value)) (k : string) (v : value) :
  prop (set_property (VObj fields) k v) k = v.
Proof. unfold prop; simpl. now rewrite assoc_update. Qed.

Lemma get_truthy (v : value) (k : string) :
  truthy v = true -> get v k = Returned (prop v k).
Proof. destruct v; simpl; try discriminate; reflexivity. Qed.

Lemma integer_value_Int (z : Z) : integer_value (Int z) = Some z.
Proof.
  unfold integer_value, Int, isInteger; simpl.
  rewrite Z.mod_1_r; simpl. now rewrite Z.div_1_r.
Qed.

Lemma truthy_Int (z : Z) : truthy (Int z) = negb (z =? 0).
Proof. reflexivity. Qed.

(** A value that passes [Number.isInteger] and is not below 5 denotes an
    integer that is at least 5. *)
Lemma integer_checked (v : value) :
  isInteger v = true -> js_lt v (Int 5) = false ->
  exists m, integer_value v = Some m /\ 5 <= m.
Proof.
  unfold integer_value. intros Hi Hlt. rewrite Hi.
  destruct v as [| | |[[n d]| |]| |]; try discriminate.
  unfold isInteger, js_lt, Int, number_lt, inject_Z in *; cbn [Qnum Qden] in *.
  eexists; split; [reflexivity|].
  apply Z.eqb_eq in Hi. apply Z.ltb_ge in Hlt.
  apply Z.div_le_lower_bound; lia.
Qed.

Lemma integer_at_least_5_spec (v : value) :
  integer_at_least_5 v = negb (negb (isInteger v) || js_lt v (Int 5)).
Proof.
  unfold integer_at_least_5, integer_value.
  destruct (isInteger v) eqn:Hi; [|reflexivity].
  destruct v as [| | |[[n d]| |]| |]; try discriminate.
  unfold isInteger, js_lt, Int, number_lt, inject_Z in *; cbn [Qnum Qden negb orb] in *.
  apply Z.eqb_eq in Hi. rewrite Z.mul_1_r.
  destruct (n <? 5 * Z.pos d) eqn:E; cbn [negb].
  - apply Z.ltb_lt in E. apply Z.leb_gt.
    apply Z.div_lt_upper_bound; lia.
  - apply Z.ltb_ge in E. apply Z.leb_le.
    apply Z.div_le_lower_bound; lia.
Qed.

(** ** Arithmetic on doubles *)

Lemma nearest_even_exact (num den z : Z) :
  0 < den -> num = z * den -> nearest_even num den = z.
Proof.
  intros Hd ->. unfold nearest_even.
  rewrite Z.div_mul, Z.mod_mul by lia.
  replace (2 * 0 <? den) with true by (symmetry; apply Z.ltb_lt; lia).
  reflexivity.
Qed.

Lemma binade_lower (a d : Z) :
  0 < a -> 0 < d -> 0 <= binade a d -> d * 2 ^ binade a d <= a.
Proof.
  intros Ha Hd. unfold binade.
  pose proof (Z.log2_spec a Ha) as [Hal Hau].
  pose proof (Z.log2_spec d Hd) as [Hdl Hdu].
  pose proof (Z.log2_nonneg a) as Hna. pose proof (Z.log2_nonneg d) as Hnd.
  set (k0 := Z.log2 a - Z.log2 d).
  destruct (0 <=? k0) eqn:Hk0.
  - destruct (d * 2 ^ k0 <=? a) eqn:Ht; intros Hk.
    + now apply Z.leb_le.
    + apply Z.lt_le_incl.
      apply Z.lt_le_trans with (2 ^ Z.succ (Z.log2 d) * 2 ^ (k0 - 1)).
      * apply Z.mul_lt_mono_pos_r; [apply Z.pow_pos_nonneg; lia|lia].
      * rewrite <- Z.pow_add_r by lia.
        replace (Z.succ (Z.log2 d) + (k0 - 1)) with (Z.log2 a) by (unfold k0; lia).
        exact Hal.
  - apply Z.leb_gt in Hk0.
    destruct (d <=? a * 2 ^ (- k0)); intros Hk; lia.
Qed.

Lemma binade_negative (a d : Z) :
  0 < a -> 0 < d -> binade a d < 0 -> a * 2 ^ (- binade a d) < 2 * d.
Proof.
  intros Ha Hd. unfold binade.
  pose proof (Z.log2_spec a Ha) as [Hal Hau].
  pose proof (Z.log2_spec d Hd) as [Hdl Hdu].
  pose proof (Z.log2_nonneg a) as Hna. pose proof (Z.log2_nonneg d) as Hnd.
  set (k0 := Z.log2 a - Z.log2 d).
  destruct (0 <=? k0) eqn:Hk0.
  - apply Z.leb_le in Hk0.
    destruct (d * 2 ^ k0 <=? a) eqn:Ht; intros Hk; [lia|].
    apply Z.leb_gt in Ht.
    assert (k0 = 0) by lia. replace (- (k0 - 1)) with 1 by lia.
    rewrite H in Ht. simpl in Ht. lia.
  - apply Z.leb_gt in Hk0.
    destruct (d <=? a * 2 ^ (- k0)) eqn:Ht; intros Hk.
    + apply Z.lt_le_trans with (2 ^ Z.succ (Z.log2 a) * 2 ^ (- k0)).
      * apply Z.mul_lt_mono_pos_r; [apply Z.pow_pos_nonneg; lia|lia].
      * rewrite <- Z.pow_add_r by lia.
        replace (Z.succ (Z.log2 a) + - k0) with (Z.succ (Z.log2 d)) by (unfold k0; lia).
        rewrite Z.pow_succ_r by lia. lia.
    + apply Z.leb_gt in Ht.
      replace (- (k0 - 1)) with (Z.succ (- k0)) by lia.
      rewrite Z.pow_succ_r by lia. lia.
Qed.

Lemma Qred_integer (n : Z) (s : positive) (z : Z) :
  n = z * Zpos s -> Qred (n # s) = inject_Z z.
Proof.
  intros H.
  transitivity (Qred (inject_Z z)).
  - apply Qred_complete. unfold Qeq, inject_Z; simpl. lia.
  - apply Qcanon.Qred_identity. simpl. apply Z.gcd_1_r.
Qed.

Lemma round_double_integer (q : Q) (z : Z) :
  (q == inject_Z z)%Q -> Z.abs z <= 2 ^ 53 -> round_double q = Fin (inject_Z z).
Proof.
  intros Hq Hz. unfold Qeq, inject_Z in Hq; simpl in Hq. rewrite Z.mul_1_r in Hq.
  unfold round_double.
  set (d := Zpos (Qden q)) in *. assert (Hd : 0 < d) by (unfold d; lia).
  destruct (Qnum q =? 0) eqn:Hn0.
  - apply Z.eqb_eq in Hn0. rewrite Hn0 in Hq.
    assert (z = 0) by nia. subst z. reflexivity.
  - apply Z.eqb_neq in Hn0.
    assert (Hz0 : z <> 0) by (intros ->; lia).
    assert (Ha : Z.abs (Qnum q) = Z.abs z * d).
    { rewrite Hq, Z.abs_mul. f_equal; lia. }
    assert (Hsg : Z.sgn (Qnum q) = Z.sgn z).
    { rewrite Hq, Z.sgn_mul. rewrite (Z.sgn_pos d) by lia. lia. }
    rewrite Ha, Hsg.
    assert (Hapos : 0 < Z.abs z * d) by nia.
    set (k := binade (Z.abs z * d) d).
    assert (Hk0 : 0 <= k).
    { destruct (Z.lt_ge_cases k 0) as [Hneg|]; [|assumption].
      pose proof (binade_negative _ _ Hapos Hd Hneg) as H. fold k in H.
      assert (2 <= 2 ^ (- k)).
      { change 2 with (2 ^ 1) at 1. apply Z.pow_le_mono_r; lia. }
      nia. }
    pose proof (binade_lower _ _ Hapos Hd Hk0) as Hlow. fold k in Hlow.
    assert (Hpk : 2 ^ k <= Z.abs z) by nia.
    assert (Hk53 : k <= 53).
    { apply (Z.pow_le_mono_r_iff 2); lia. }
    destruct (Z.le_gt_cases 52 k) as [Hhi|Hlo].
    + assert (He : Z.max (k - 52) (-1074) = k - 52) by lia. rewrite He.
      replace (0 <=? k - 52) with true by (symmetry; apply Z.leb_le; lia).
      assert (Hk : k = 52 \/ k = 53) by lia.
      assert (Hdiv : exists w, Z.abs z = w * 2 ^ (k - 52)).
      { destruct Hk as [->| ->].
        - exists (Z.abs z). simpl. lia.
        - exists (2 ^ 52). assert (Z.abs z = 2 ^ 53) by lia.
          rewrite H. reflexivity. }
      destruct Hdiv as [w Hw].
      rewrite (nearest_even_exact _ _ w).
      * rewrite <- Hw.
        replace (2 ^ 1024 <=? Z.abs z) with false.
        -- f_equal. f_equal. destruct z; simpl; lia.
        -- symmetry. apply Z.leb_gt.
           apply Z.le_lt_trans with (2 ^ 53); [assumption|reflexivity].
      * apply Z.mul_pos_pos; [lia|apply Z.pow_pos_nonneg; lia].
      * rewrite Hw. ring.
    + assert (He : Z.max (k - 52) (-1074) = k - 52) by lia. rewrite He.
      replace (0 <=? k - 52) with false by (symmetry; apply Z.leb_gt; lia).
      assert (Hs : 0 < 2 ^ (- (k - 52))) by (apply Z.pow_pos_nonneg; lia).
      rewrite (nearest_even_exact _ _ (Z.abs z * 2 ^ (- (k - 52)))); [|lia|ring].
      f_equal. apply Qred_integer.
      rewrite Z2Pos.id by assumption.
      rewrite Z.mul_assoc. f_equal. destruct z; simpl; lia.
Qed.

(** Rounding to the grid of spacing [1/s] and flooring gives the floor,
    when the grid is finer than half the spacing [1/d] of the fractions. *)
Lemma nearest_even_floor (a d s : Z) :
  0 <= a -> 0 < d -> d < 2 * s -> nearest_even (a * s) d / s = a / d.
Proof.
  intros Ha Hd Hs.
  assert (Hs0 : 0 < s) by lia.
  set (K := a / d). set (t := a mod d).
  assert (Hat : a = d * K + t) by (apply Z.div_mod; lia).
  assert (Ht : 0 <= t < d) by (apply Z.mod_pos_bound; lia).
  set (c := (t * s) / d). set (r := (t * s) mod d).
  assert (Hts : t * s = d * c + r) by (apply Z.div_mod; lia).
  assert (Hr : 0 <= r < d) by (apply Z.mod_pos_bound; lia).
  assert (Hc : 0 <= c).
  { apply Z.div_pos; nia. }
  assert (Hdiv : (a * s) / d = K * s + c).
  { symmetry. apply (Z.div_unique _ _ _ r); [lia|]. nia. }
  assert (Hmod : (a * s) mod d = r).
  { symmetry. apply (Z.mod_unique _ _ (K * s + c)); [lia|]. nia. }
  assert (Hcs : c <= s - 1) by nia.
  unfold nearest_even. rewrite Hdiv, Hmod.
  symmetry.
  destruct (2 * r <? d) eqn:E1.
  - apply (Z.div_unique _ _ _ c); [lia|]. ring.
  - apply Z.ltb_ge in E1.
    assert (Hc2 : c <= s - 2) by nia.
    destruct (d <? 2 * r); [|destruct (Z.even (K * s + c))].
    + apply (Z.div_unique _ _ _ (c + 1)); [lia|]. ring.
    + apply (Z.div_unique _ _ _ c); [lia|]. ring.
    + apply (Z.div_unique _ _ _ (c + 1)); [lia|]. ring.
Qed.

Lemma floor_over_1000 (a : Z) :
  0 <= a <= 2 ^ 53 ->
  number_floor (number_over (num a) 1000) = num (a / 1000).
Proof.
  intros Ha. unfold number_over, num, round_double.
  change (Qnum (inject_Z a / inject_Z 1000)) with (a * 1).
  change (Z.pos (Qden (inject_Z a / inject_Z 1000))) with 1000.
  rewrite Z.mul_1_r.
  destruct (a =? 0) eqn:Ha0.
  - apply Z.eqb_eq in Ha0. subst a. reflexivity.
  - apply Z.eqb_neq in Ha0. assert (Hpos : 0 < a) by lia.
    rewrite Z.abs_eq by lia. rewrite Z.sgn_pos by lia.
    set (k := binade a 1000).
    assert (Hk : k <= 43).
    { destruct (Z.lt_ge_cases k 0) as [|Hk0]; [lia|].
      pose proof (binade_lower a 1000 Hpos ltac:(lia) Hk0) as Hlow. fold k in Hlow.
      destruct (Z.le_gt_cases k 43) as [|Hbig]; [assumption|exfalso].
      assert (2 ^ 44 <= 2 ^ k) by (apply Z.pow_le_mono_r; lia).
      assert (2 ^ 53 < 1000 * 2 ^ 44) by reflexivity.
      lia. }
    set (e := Z.max (k - 52) (-1074)).
    assert (He : e <= -9) by lia.
    replace (0 <=? e) with false by (symmetry; apply Z.leb_gt; lia).
    set (s := 2 ^ (- e)).
    assert (Hs : 512 <= s).
    { change 512 with (2 ^ 9). apply Z.pow_le_mono_r; lia. }
    unfold number_floor. f_equal. f_equal.
    rewrite Z.mul_1_l.
    rewrite (Qfloor_comp _ _ (Qred_correct _)).
    unfold Qfloor. rewrite Z2Pos.id by lia.
    apply nearest_even_floor; lia.
Qed.

(** A value that passes [Number.isInteger] is a number equal to the integer
    it denotes. *)
Lemma integer_value_number (v : value) (m : Z) :
  integer_value v = Some m ->
  exists q, v = VNum (Fin q) /\ (q == inject_Z m)%Q.
Proof.
  unfold integer_value. destruct (isInteger v) eqn:Hi; [|discriminate].
  destruct v as [| | |[[n d]| |]| |]; try discriminate.
  intros [= <-]. eexists; split; [reflexivity|].
  unfold isInteger in Hi; cbn [Qnum Qden] in *. apply Z.eqb_eq in Hi.
  unfold Qeq, inject_Z; cbn [Qnum Qden]. rewrite Z.mul_1_r.
  pose proof (Z.div_mod n (Z.pos d) ltac:(lia)). lia.
Qed.

(** Within the range where every integer is a double, the arithmetic of
    [authenticate] is exact. *)
Lemma expires_exact (q : Q) (now m : Z) :
  (q == inject_Z m)%Q ->
  Z.abs (m * 60000) <= safe ->
  Z.abs (now + m * 60000) <= safe ->
  number_add (num now) (number_mul (number_mul (Fin q) (num 60)) (num 1000))
  = num (now + m * 60000).
Proof.
  intros Hq Hm Hsum. unfold safe in *. unfold number_mul at 2, num.
  rewrite (round_double_integer _ (m * 60)).
  - unfold number_mul. rewrite (round_double_integer _ (m * 60 * 1000)).
    + unfold number_add. rewrite (round_double_integer _ (now + m * 60000)).
      * reflexivity.
      * rewrite <- inject_Z_plus. replace (m * 60 * 1000) with (m * 60000) by lia.
        reflexivity.
      * exact Hsum.
    + rewrite <- inject_Z_mult. reflexivity.
    + replace (m * 60 * 1000) with (m * 60000) by lia. exact Hm.
  - rewrite Hq, <- inject_Z_mult. reflexivity.
  - lia.
Qed.

(** ** Guards on request fields *)

Lemma guarded_field {S} (req : value) (k1 k2 : string) (st : S) :
  guarded req k1 k2 st = (Returned (field req k1 k2), st).
Proof.
  unfold guarded, field, js_and, bind, lift, ret.
  destruct (truthy req) eqn:Hr; [|reflexivity].
  rewrite (get_truthy _ _ Hr).
  destruct (truthy (prop req k1)) eqn:Hq; [|reflexivity].
  now rewrite (get_truthy _ _ Hq).
Qed.

Lemma get2_field {S} (req : value) (k1 k2 : string) (st : S) :
  truthy (field req k1 k2) = true ->
  get2 req k1 k2 st = (Returned (field req k1 k2), st).
Proof.
  unfold get2, field, bind, lift.
  destruct (truthy req) eqn:Hr; [|congruence].
  rewrite (get_truthy _ _ Hr).
  destruct (truthy (prop req k1)) eqn:Hq; [|congruence].
  intros _. now rewrite (get_truthy _ _ Hq).
Qed.

Lemma request_token_spec (req : value) (st : RequestApi.state) :
  RequestApi.request_token req st = (Returned (token_of req), st).
Proof.
  unfold RequestApi.request_token, token_of, bind.
  rewrite !guarded_field.
  destruct (truthy (field req "query" "token")) eqn:Hq.
  - rewrite (get2_field _ _ _ _ Hq), guarded_field.
    destruct (truthy (field req "headers" "authorization")) eqn:Hh.
    + now rewrite (get2_field _ _ _ _ Hh).
    + reflexivity.
  - unfold ret at 1. rewrite guarded_field.
    destruct (truthy (field req "headers" "authorization")) eqn:Hh.
    + now rewrite (get2_field _ _ _ _ Hh).
    + reflexivity.
Qed.

(** ** Configuration *)

Lemma get_options (options : value) (k : string) :
  options <> VNull ->
  get (match options with VUndefined => VObj [] | _ => options end) k
  = Returned (prop options k).
Proof. destruct options; simpl; intros H; try reflexivity; congruence. Qed.

Lemma fs_stat_accepted {S} (path : value) (st : S) :
  accepted_path path = true -> fs_stat path st = (Returned tt, st).
Proof.
  destruct path; try discriminate. simpl. intros H.
  apply negb_true_iff in H. now rewrite H.
Qed.

Lemma fs_stat_refused {S} (path : value) (st : S) :
  accepted_path path = false ->
  fs_stat path st
  = (match refusal path with
     | Returned _ => Returned tt
     | Thrown e => Thrown e
     | Unmodelled => Unmodelled
     end, st).
Proof.
  destruct path; simpl; try reflexivity. intros H.
  apply negb_false_iff in H. now rewrite H.
Qed.

(** On a path [fs.stat] refuses, [auth] stops before the first assignment. *)
Lemma request_auth_refused (secret path options : value) (st0 : RequestApi.state) :
  accepted_path path = false ->
  RequestApi.auth secret path options st0 = (refusal path, st0).
Proof.
  intros H. unfold RequestApi.auth, bind. rewrite (fs_stat_refused _ _ H).
  destruct path; try discriminate; reflexivity.
Qed.

Lemma direct_auth_refused (secret path options : value) (st0 : DirectApi.state) :
  accepted_path path = false ->
  DirectApi.auth secret path options st0 = (refusal path, st0).
Proof.
  intros H. unfold DirectApi.auth, bind. rewrite (fs_stat_refused _ _ H).
  destruct path; try discriminate; reflexivity.
Qed.

Lemma refusal_not_returned (path h : value) :
  accepted_path path = false -> refusal path <> Returned h.
Proof. destruct path; try discriminate. Qed.

(** What [auth] of the first edition does, case by case. *)
Lemma request_auth_run (secret path options : value) (st0 : RequestApi.state) :
  accepted_path path = true ->
  options <> VNull ->
  let u := prop options "useHttp" in
  let m := prop options "tokenExpirationMinutes" in
  let st1 := RequestApi.set_userStoreFilePath path (RequestApi.set_secret secret st0) in
  let st2 := RequestApi.set_useHttp (js_or u (VBool false)) st1 in
  RequestApi.auth secret path options st0 =
    if truthy u && negb (String.eqb (typeof u) "boolean")
    then (Thrown (new_Error useHttp_message), st1)
    else if truthy m && negb (integer_at_least_5 m)
    then (Thrown (new_Error tokenExpirationMinutes_message), st2)
    else (Returned handle,
          RequestApi.set_tokenExpirationMinutes
            (js_or m RequestApi.TOKEN_EXPIRATION_MINUTES) st2).
Proof.
  intros Hpath Hnull u m st1 st2.
  unfold RequestApi.auth, bind. rewrite (fs_stat_accepted _ _ Hpath).
  unfold write, lift, throw, ret.
  rewrite !get_options by assumption. fold u m.
  rewrite integer_at_least_5_spec, negb_involutive.
  destruct (truthy u && negb (String.eqb (typeof u) "boolean")); [reflexivity|].
  destruct (truthy m && (negb (isInteger m) || js_lt m (Int 5))); reflexivity.
Qed.

Lemma request_auth_null (secret path : value) (st0 : RequestApi.state) :
  accepted_path path = true ->
  RequestApi.auth secret path VNull st0 =
    (Thrown (type_error VNull "useHttp"),
     RequestApi.set_userStoreFilePath path (RequestApi.set_secret secret st0)).
Proof.
  intros Hpath. unfold RequestApi.auth, bind. now rewrite (fs_stat_accepted _ _ Hpath).
Qed.

Lemma request_auth_path (secret path options h : value) (st0 st : RequestApi.state) :
  RequestApi.auth secret path options st0 = (Returned h, st) ->
  accepted_path path = true.
Proof.
  intros H. destruct (accepted_path path) eqn:E; [reflexivity|].
  rewrite (request_auth_refused _ _ _ _ E) in H. injection H as H _.
  now apply refusal_not_returned in H.
Qed.

(** The state a successful [auth] of the first edition leaves. *)
Lemma request_auth_returned (secret path options h : value) (st0 st : RequestApi.state) :
  RequestApi.auth secret path options st0 = (Returned h, st) ->
  h = handle /\
  st = {| RequestApi._useHttp := js_or (prop options "useHttp") (VBool false);
          RequestApi._tokenExpirationMinutes :=
            js_or (prop options "tokenExpirationMinutes") (Int 60);
          RequestApi._secret := secret;
          RequestApi._userStoreFilePath := path |} /\
  (truthy (prop options "useHttp") = true ->
   typeof (prop options "useHttp") = "boolean") /\
  (truthy (prop options "tokenExpirationMinutes") = true ->
   integer_at_least_5 (prop options "tokenExpirationMinutes") = true).
Proof.
  intros H. pose proof (request_auth_path _ _ _ _ _ _ H) as Hpath.
  assert (Hnull : options <> VNull).
  { intros ->. rewrite request_auth_null in H by assumption. discriminate. }
  rewrite (request_auth_run _ _ _ _ Hpath Hnull) in H. cbv zeta in H.
  destruct (truthy (prop options "useHttp")
            && negb (String.eqb (typeof (prop options "useHttp")) "boolean")) eqn:E1;
    [discriminate|].
  destruct (truthy (prop options "tokenExpirationMinutes")
            && negb (integer_at_least_5 (prop options "tokenExpirationMinutes"))) eqn:E2;
    [discriminate|].
  injection H as <- <-.
  repeat split.
  - intros Ht. rewrite Ht in E1. simpl in E1.
    apply negb_false_iff, String.eqb_eq in E1. exact E1.
  - intros Ht. rewrite Ht in E2. simpl in E2.
    now apply negb_false_iff in E2.
Qed.

(** After a successful [auth] the lifetime is an integer of at least 5. *)
Lemma request_auth_lifetime (secret path options h : value) (st0 st : RequestApi.state) :
  RequestApi.auth secret path options st0 = (Returned h, st) ->
  exists m,
    integer_value (RequestApi._tokenExpirationMinutes st) = Some m /\ 5 <= m /\
    integer_value (js_or (prop options "tokenExpirationMinutes") (Int 60)) = Some m.
Proof.
  intros H. apply request_auth_returned in H as (_ & -> & _ & Hm). simpl.
  unfold js_or. destruct (truthy (prop options "tokenExpirationMinutes")) eqn:Et.
  - specialize (Hm eq_refl). unfold integer_at_least_5 in Hm.
    destruct (integer_value (prop options "tokenExpirationMinutes")) as [m|];
      [|discriminate].
    exists m. apply Z.leb_le in Hm. auto.
  - exists 60. rewrite integer_value_Int. repeat split; lia.
Qed.

(** What [auth] of the second edition does. *)
Lemma direct_auth_run (secret path options : value) (st0 : DirectApi.state) :
  accepted_path path = true ->
  options <> VNull ->
  let m := js_or (prop options "tokenExpirationMinutes") DirectApi.TOKEN_EXPIRATION_MINTUES in
  let st1 := DirectApi.set_tokenExpirationMinutes m
               (DirectApi.set_userStoreFilePath path (DirectApi.set_secret secret st0)) in
  DirectApi.auth secret path options st0 =
    if integer_at_least_5 m then (Returned handle, st1)
    else (Thrown (new_Error tokenExpirationMinutes_message), st1).
Proof.
  intros Hpath Hnull m st1.
  unfold DirectApi.auth, bind. rewrite (fs_stat_accepted _ _ Hpath).
  unfold write, lift, throw, ret, read.
  rewrite !get_options by assumption. cbn [DirectApi._tokenExpirationMinutes DirectApi.set_tokenExpirationMinutes].
  fold m. rewrite integer_at_least_5_spec.
  destruct (negb (isInteger m) || js_lt m (Int 5)); reflexivity.
Qed.

Lemma direct_auth_null (secret path : value) (st0 : DirectApi.state) :
  accepted_path path = true ->
  DirectApi.auth secret path VNull st0 =
    (Thrown (type_error VNull "tokenExpirationMinutes"),
     DirectApi.set_userStoreFilePath path (DirectApi.set_secret secret st0)).
Proof.
  intros Hpath. unfold DirectApi.auth, bind. now rewrite (fs_stat_accepted _ _ Hpath).
Qed.

Lemma direct_auth_path (secret path options h : value) (st0 st : DirectApi.state) :
  DirectApi.auth secret path options st0 = (Returned h, st) ->
  accepted_path path = true.
Proof.
  intros H. destruct (accepted_path path) eqn:E; [reflexivity|].
  rewrite (direct_auth_refused _ _ _ _ E) in H. injection H as H _.
  now apply refusal_not_returned in H.
Qed.

Lemma direct_auth_returned (secret path options h : value) (st0 st : DirectApi.state) :
  DirectApi.auth secret path options st0 = (Returned h, st) ->
  h = handle /\
  st = {| DirectApi._tokenExpirationMinutes :=
            js_or (prop options "tokenExpirationMinutes") (Int 60);
          DirectApi._secret := secret;
          DirectApi._userStoreFilePath := path |} /\
  exists m, integer_value (DirectApi._tokenExpirationMinutes st) = Some m /\ 5 <= m.
Proof.
  intros H. pose proof (direct_auth_path _ _ _ _ _ _ H) as Hpath.
  assert (Hnull : options <> VNull).
  { intros ->. rewrite direct_auth_null in H by assumption. discriminate. }
  rewrite (direct_auth_run _ _ _ _ Hpath Hnull) in H. cbv zeta in H.
  destruct (integer_at_least_5
              (js_or (prop options "tokenExpirationMinutes")
                 DirectApi.TOKEN_EXPIRATION_MINTUES)) eqn:E; [|discriminate].
  injection H as <- <-. split; [reflexivity|split; [reflexivity|]].
  unfold integer_at_least_5 in E. simpl.
  change DirectApi.TOKEN_EXPIRATION_MINTUES with (Int 60) in *.
  destruct (integer_value (js_or (prop options "tokenExpirationMinutes") (Int 60)))
    as [m|]; [|discriminate].
  exists m. apply Z.leb_le in E. auto.
Qed.

(** ** Code that reads the variables and never assigns them *)

Lemma read_only_ret {S A} (a : A) : read_only (@ret S A a).
Proof. intros st; reflexivity. Qed.

Lemma read_only_lift {S A} (o : outcome A) : read_only (@lift S A o).
Proof. intros st; reflexivity. Qed.

Lemma read_only_throw {S A} (e : value) : read_only (@throw S A e).
Proof. intros st; reflexivity. Qed.

Lemma read_only_read {S} (var : S -> value) : read_only (read var).
Proof. intros st; reflexivity. Qed.

Lemma read_only_bind {S A B} (m : M S A) (f : A -> M S B) :
  read_only m -> (forall a, read_only (f a)) -> read_only (bind m f).
Proof.
  intros Hm Hf st. unfold bind. specialize (Hm st).
  destruct (m st) as [[a|e|] st']; simpl in *; subst; auto. apply Hf.
Qed.

Lemma read_only_js_and {S} (a : value) (b : M S value) :
  read_only b -> read_only (js_and a b).
Proof. intros Hb. unfold js_and. destruct (truthy a); auto using read_only_ret. Qed.

Lemma read_only_new_Promise {S} (executor : promise -> M S promise) :
  (forall p, read_only (executor p)) -> read_only (new_Promise executor).
Proof.
  intros H st. unfold new_Promise. specialize (H Pending st).
  destruct (executor Pending st) as [[a|e|] st']; simpl in *; auto.
Qed.

Lemma read_only_numeric {S} (v : value) : read_only (@numeric S v).
Proof.
  unfold numeric. destruct (to_number v); auto using read_only_ret, read_only_lift.
Qed.

Lemma read_only_get2 {S} (req : value) (k1 k2 : string) : read_only (@get2 S req k1 k2).
Proof. apply read_only_bind; intros; apply read_only_lift. Qed.

Lemma read_only_guarded {S} (req : value) (k1 k2 : string) :
  read_only (@guarded S req k1 k2).
Proof. intros st. now rewrite guarded_field. Qed.

Create HintDb frame.
#[local] Hint Resolve read_only_ret read_only_lift read_only_throw read_only_read
  read_only_js_and read_only_numeric read_only_get2 read_only_guarded : frame.

Ltac frame :=
  repeat first
    [ apply read_only_bind; [|intros]
    | apply read_only_new_Promise; intros
    | solve [auto with frame]
    | match goal with
      | |- read_only (if ?c then _ else _) => destruct c
      | |- read_only (match ?x with _ => _ end) => destruct x
      end ].

Lemma request_credentials_read_only (req : value) :
  read_only (RequestApi.request_credentials req).
Proof. unfold RequestApi.request_credentials. frame. Qed.

Lemma authenticationSpecification_read_only :
  read_only RequestApi.authenticationSpecification.
Proof. unfold RequestApi.authenticationSpecification. frame. Qed.

Lemma authenticate_read_only (env : collaborators) (now : Z) (req : value) :
  read_only (RequestApi.authenticate env now req).
Proof.
  unfold RequestApi.authenticate. apply read_only_new_Promise; intros p.
  apply read_only_bind; [apply request_credentials_read_only|intros [u pw]].
  frame.
Qed.

Lemma authorize_read_only (env : collaborators) (now : Z) (req : value) :
  read_only (RequestApi.authorize env now req).
Proof.
  unfold RequestApi.authorize. apply read_only_new_Promise; intros p.
  apply read_only_bind; [intros st; now rewrite request_token_spec|intros token].
  frame.
Qed.

Lemma direct_authenticate_read_only (env : collaborators) (now : Z) (u pw : value) :
  read_only (DirectApi.authenticate env now u pw).
Proof. unfold DirectApi.authenticate. frame. Qed.

Lemma direct_authorize_read_only (env : collaborators) (now : Z) (token : value) :
  read_only (DirectApi.authorize env now token).
Proof. unfold DirectApi.authorize. frame. Qed.

Lemma state_after_same (env : collaborators) (c : call) (st : RequestApi.state) :
  state_after env c st = st.
Proof.
  destruct c; simpl.
  - apply authenticationSpecification_read_only.
  - apply authenticate_read_only.
  - apply authorize_read_only.
Qed.

(** ** Issuing a token *)

(** What [authenticate] does once the collaborator has given its verdict. *)
Lemma request_authenticate_run (env : collaborators) (now : Z) (req u pw : value)
    (st : RequestApi.state) (valid : value) (n : number) :
  RequestApi.request_credentials req st = (Returned (u, pw), st) ->
  validateCredentials env u pw (RequestApi._userStoreFilePath st) = Fulfilled valid ->
  to_number (RequestApi._tokenExpirationMinutes st) = Some n ->
  RequestApi.authenticate env now req st =
    (Returned
       (issued (jwt env) (RequestApi._secret st) now n u
          (if negb (truthy valid)
           then reject RequestApi.invalid_credentials Pending else Pending)),
     st).
Proof.
  intros Hc Hv Hn.
  unfold RequestApi.authenticate, new_Promise, bind. rewrite Hc.
  unfold read. rewrite Hv. unfold numeric. rewrite Hn. unfold ret, issued.
  destruct (Jwt.sign _ _ _); reflexivity.
Qed.

Lemma direct_authenticate_run (env : collaborators) (now : Z) (u pw : value)
    (st : DirectApi.state) (valid : value) (n : number) :
  validateCredentials env u pw (DirectApi._userStoreFilePath st) = Fulfilled valid ->
  to_number (DirectApi._tokenExpirationMinutes st) = Some n ->
  DirectApi.authenticate env now u pw st =
    (Returned
       (issued (jwt env) (DirectApi._secret st) now n u
          (if negb (truthy valid)
           then reject DirectApi.invalid_credentials Pending else Pending)),
     st).
Proof.
  intros Hv Hn.
  unfold DirectApi.authenticate, new_Promise, bind, read. rewrite Hv.
  unfold numeric. rewrite Hn. unfold ret, issued.
  destruct (Jwt.sign _ _ _); reflexivity.
Qed.

(** Once a promise is rejected, neither the token nor a signing error
    changes it. *)
Lemma issued_after_reject (j : Jwt.lib) (secret : value) (now : Z) (n : number)
    (u e : value) :
  issued j secret now n u (Rejected e) = Rejected e.
Proof. unfold issued. destruct (Jwt.sign _ _ _); reflexivity. Qed.

(** The lifetime a successful [auth] stores is a number. *)
Lemma integer_is_number (v : value) (m : Z) :
  integer_value v = Some m ->
  exists q, to_number v = Some (Fin q) /\ (q == inject_Z m)%Q.
Proof.
  intros H. apply integer_value_number in H as (q & -> & Hq). now exists q.
Qed.

(** What is issued within the range where every integer is a double. *)
Lemma issued_exact (j : Jwt.lib) (secret : value) (now m : Z) (q : Q)
    (u : value) (p : promise) :
  (q == inject_Z m)%Q ->
  Z.abs (m * 60000) <= safe ->
  0 <= now + m * 60000 <= safe ->
  issued j secret now (Fin q) u p =
    match Jwt.sign j (VObj [("exp", Int ((now + m * 60000) / 1000)); ("sub", u)]) secret with
    | Jwt.Signed token =>
        resolve (VObj [("token", VStr token); ("expires", Int (now + m * 60000))]) p
    | Jwt.Failed err => reject err p
    end.
Proof.
  intros Hq Hm Hsum. unfold issued. cbv zeta.
  rewrite (expires_exact q now m Hq Hm) by (rewrite Z.abs_eq; lia).
  rewrite floor_over_1000 by (unfold safe in Hsum; lia).
  reflexivity.
Qed.

(** ** Checking a token *)

Lemma request_authorize_run (env : collaborators) (now : Z) (req : value)
    (st : RequestApi.state) :
  RequestApi.authorize env now req st =
    (Returned
       (if truthy (token_of req)
        then verified (jwt env) (RequestApi._secret st) now (token_of req)
        else Rejected RequestApi.no_authorization_token),
     st).
Proof.
  unfold RequestApi.authorize, new_Promise, bind. rewrite request_token_spec.
  unfold read, verified.
  destruct (Jwt.verify (jwt env) (token_of req) (RequestApi._secret st) now) as [err decoded].
  destruct (truthy (token_of req)); simpl.
  - destruct (truthy err); reflexivity.
  - destruct (truthy err); reflexivity.
Qed.

Lemma direct_authorize_run (env : collaborators) (now : Z) (token : value)
    (st : DirectApi.state) :
  DirectApi.authorize env now token st =
    (Returned (verified (jwt env) (DirectApi._secret st) now token), st).
Proof.
  unfold DirectApi.authorize, new_Promise, bind, read, verified.
  destruct (Jwt.verify (jwt env) token (DirectApi._secret st) now) as [err decoded].
  destruct (truthy err); reflexivity.
Qed.

(** The verification primitive accepts exactly the well-formed tokens whose
    signature and expiry pass. *)
Lemma verified_fulfilled (j : Jwt.lib) (secret token : value) (now : Z) (claims : value) :
  verified j secret now token = Fulfilled claims <->
  Jwt.decode j token = Some claims /\
  Jwt.signature_ok j token secret = true /\
  Jwt.exp_ok claims now = true.
Proof.
  unfold verified, Jwt.verify.
  destruct (Jwt.decode j token) as [c|]; simpl.
  - destruct (Jwt.signature_ok j token secret); simpl.
    + destruct (Jwt.exp_ok c now) eqn:E; simpl.
      * split; [intros [= <-]; auto|intros ([= <-] & _ & _); reflexivity].
      * split; [discriminate|intros ([= <-] & _ & H); congruence].
    + split; [discriminate|intros (_ & H & _); discriminate].
  - split; [discriminate|intros (H & _); discriminate].
Qed.

(** Whatever it does not accept is rejected with code 401. *)
Lemma verified_rejected (j : Jwt.lib) (secret token : value) (now : Z) :
  (forall claims, verified j secret now token <> Fulfilled claims) ->
  exists e, verified j secret now token = Rejected e /\ prop e "code" = Int 401.
Proof.
  unfold verified, Jwt.verify. intros H.
  destruct (Jwt.decode j token) as [c|]; simpl in *.
  - destruct (Jwt.signature_ok j token secret); simpl in *.
    + destruct (Jwt.exp_ok c now); simpl in *.
      * now specialize (H c).
      * eexists; split; reflexivity.
    + eexists; split; reflexivity.
  - eexists; split; reflexivity.
Qed.

(** ** The reference signing library meets the contract *)

Lemma bits_pos_bits (p : positive) :
  ReferenceJwt.bits_pos (ReferenceJwt.pos_bits p) = Some p.
Proof. induction p; simpl; try rewrite IHp; reflexivity. Qed.

Lemma parse_print_Z (z : Z) : ReferenceJwt.parse_Z (ReferenceJwt.print_Z z) = Some z.
Proof. destruct z; simpl; try rewrite bits_pos_bits; reflexivity. Qed.

Lemma count_ones_ones (n : nat) (rest : string) :
  ReferenceJwt.count_ones (ReferenceJwt.ones n rest) = Some (n, rest).
Proof. induction n; simpl; try rewrite IHn; reflexivity. Qed.

Lemma take_append (a rest : string) :
  ReferenceJwt.take (String.length a) (a ++ rest) = Some (a, rest).
Proof. induction a; simpl; try rewrite IHa; reflexivity. Qed.

Lemma unchunk_chunk (a rest : string) :
  ReferenceJwt.unchunk (ReferenceJwt.chunk a rest) = Some (a, rest).
Proof.
  unfold ReferenceJwt.unchunk, ReferenceJwt.chunk.
  rewrite count_ones_ones. apply take_append.
Qed.

Lemma parts_token_text (payload : value) (key : string) :
  ReferenceJwt.parts (VStr (ReferenceJwt.token_text payload key)) =
    Some (ReferenceJwt.print_exp (prop payload "exp"),
          ReferenceJwt.print_sub (prop payload "sub"),
          key).
Proof.
  unfold ReferenceJwt.parts, ReferenceJwt.token_text. now rewrite !unchunk_chunk.
Qed.

Lemma reference_sign_inv (payload : value) (key token : string) :
  ReferenceJwt.sign payload (VStr key) = Jwt.Signed token ->
  key <> "" /\ token = ReferenceJwt.token_text payload key.
Proof.
  unfold ReferenceJwt.sign. destruct (String.eqb key "") eqn:E; [discriminate|].
  intros [= <-]. split; [now apply String.eqb_neq|reflexivity].
Qed.

Lemma reference_contract : jwt_contract ReferenceJwt.lib.
Proof.
  split; simpl.
  - intros payload key e sub Hkey _ _. unfold ReferenceJwt.sign.
    apply String.eqb_neq in Hkey. rewrite Hkey. eexists; reflexivity.
  - intros payload secret token. unfold ReferenceJwt.sign.
    destruct secret as [| | | |key|]; try discriminate.
    destruct (String.eqb key ""); [discriminate|]. intros [= <-].
    unfold ReferenceJwt.token_text, ReferenceJwt.chunk.
    destruct (String.length _); discriminate.
  - intros payload key token e sub Hsign He Hs.
    apply reference_sign_inv in Hsign as [_ ->].
    unfold ReferenceJwt.decode. rewrite parts_token_text, He, Hs.
    unfold ReferenceJwt.print_exp. rewrite integer_value_Int, parse_print_Z.
    eexists; split; [reflexivity|split; reflexivity].
  - intros payload key token Hsign.
    apply reference_sign_inv in Hsign as [_ ->].
    unfold ReferenceJwt.signature_ok. rewrite parts_token_text. apply String.eqb_refl.
  - intros payload key key' token Hsign Hne.
    apply reference_sign_inv in Hsign as [_ ->].
    unfold ReferenceJwt.signature_ok. rewrite parts_token_text. now apply String.eqb_neq.
Qed.

(** ** The claims *)

(** C1. When the credential-validation collaborator answers false (or any
    falsy value), the promise of [authenticate] is rejected with the error
    "Invalid credentials." carrying code 401, in both editions, and it is not
    fulfilled with a token object: the token is still signed after the
    rejection, but the [resolve] (or, if signing throws, the [reject]) that
    follows finds the promise settled. *)
Theorem invalid_credentials_rejected (env : collaborators) (now : Z) (valid : value) :
  truthy valid = false ->
  (forall secret path options h st0 st req u pw,
      RequestApi.auth secret path options st0 = (Returned h, st) ->
      RequestApi.request_credentials req st = (Returned (u, pw), st) ->
      validateCredentials env u pw path = Fulfilled valid ->
      RequestApi.authenticate env now req st
        = (Returned (Rejected RequestApi.invalid_credentials), st) /\
      forall json,
        RequestApi.authenticate env now req st <> (Returned (Fulfilled json), st)) /\
  (forall secret path options h st0 st u pw,
      DirectApi.auth secret path options st0 = (Returned h, st) ->
      validateCredentials env u pw path = Fulfilled valid ->
      DirectApi.authenticate env now u pw st
        = (Returned (Rejected DirectApi.invalid_credentials), st) /\
      forall json,
        DirectApi.authenticate env now u pw st <> (Returned (Fulfilled json), st)) /\
  prop RequestApi.invalid_credentials "code" = Int 401 /\
  prop RequestApi.invalid_credentials "message" = VStr "Invalid credentials." /\
  DirectApi.invalid_credentials = RequestApi.invalid_credentials.
Proof.
  intros Hvalid.
  split; [|split; [|repeat split]].
  - intros secret path options h st0 st req u pw Hauth Hcreds Hv.
    destruct (request_auth_lifetime _ _ _ _ _ _ Hauth) as (m & Hm & _).
    apply request_auth_returned in Hauth as (_ & Hst & _).
    assert (Hp : RequestApi._userStoreFilePath st = path) by (subst st; reflexivity).
    rewrite <- Hp in Hv.
    destruct (integer_is_number _ _ Hm) as (q & Hn & _).
    rewrite (request_authenticate_run _ _ _ _ _ _ _ _ Hcreds Hv Hn), Hvalid.
    cbn [negb reject]. rewrite issued_after_reject.
    split; [reflexivity|discriminate].
  - intros secret path options h st0 st u pw Hauth Hv.
    apply direct_auth_returned in Hauth as (_ & Hst & m & Hm & _).
    assert (Hp : DirectApi._userStoreFilePath st = path) by (subst st; reflexivity).
    rewrite <- Hp in Hv.
    destruct (integer_is_number _ _ Hm) as (q & Hn & _).
    rewrite (direct_authenticate_run _ _ _ _ _ _ _ Hv Hn), Hvalid.
    cbn [negb reject]. rewrite issued_after_reject.
    split; [reflexivity|discriminate].
Qed.

Lemma invalid_credentials_rejected_witness :
  RequestApi.authenticate Sample.env 0 (Sample.login "ann" "wrong") Sample.configured
    = (Returned (Rejected RequestApi.invalid_credentials), Sample.configured) /\
  DirectApi.authenticate Sample.env 0 (VStr "bob") (VStr "pw") Sample.direct_configured
    = (Returned (Rejected DirectApi.invalid_credentials), Sample.direct_configured).
Proof.
  destruct (invalid_credentials_rejected Sample.env 0 (VBool false) eq_refl)
    as (HA & HB & _).
  split.
  - refine (proj1 (HA Sample.secret Sample.path Sample.lifetime_5 handle
                      RequestApi.unconfigured Sample.configured
                      (Sample.login "ann" "wrong") (VStr "ann") (VStr "wrong") _ _ _));
      reflexivity.
  - refine (proj1 (HB Sample.secret Sample.path Sample.lifetime_5 handle
                      DirectApi.unconfigured Sample.direct_configured
                      (VStr "bob") (VStr "pw") _ _)); reflexivity.
Defined.

(** C8. An error the credential-validation collaborator rejects with is the
    very value the promise of [authenticate] is rejected with, in both
    editions; nothing is wrapped or retried. *)
Theorem collaborator_error_propagates (env : collaborators) (now : Z) (err : value) :
  (forall req st u pw,
      RequestApi.request_credentials req st = (Returned (u, pw), st) ->
      validateCredentials env u pw (RequestApi._userStoreFilePath st) = Rejected err ->
      RequestApi.authenticate env now req st = (Returned (Rejected err), st)) /\
  (forall st u pw,
      validateCredentials env u pw (DirectApi._userStoreFilePath st) = Rejected err ->
      DirectApi.authenticate env now u pw st = (Returned (Rejected err), st)).
Proof.
  split.
  - intros req st u pw Hcreds Hv.
    unfold RequestApi.authenticate, new_Promise, bind. rewrite Hcreds.
    unfold read. now rewrite Hv.
  - intros st u pw Hv.
    unfold DirectApi.authenticate, new_Promise, bind, read. now rewrite Hv.
Qed.

Lemma collaborator_error_propagates_witness :
  RequestApi.authenticate Sample.env 0 (Sample.login "eve" "pw") Sample.configured
    = (Returned (Rejected (new_Error "ENOENT: no such file")), Sample.configured) /\
  DirectApi.authenticate Sample.env 0 (VStr "eve") (VStr "pw") Sample.direct_configured
    = (Returned (Rejected (new_Error "ENOENT: no such file")), Sample.direct_configured).
Proof.
  destruct (collaborator_error_propagates Sample.env 0 (new_Error "ENOENT: no such file"))
    as (HA & HB).
  split.
  - apply (HA (Sample.login "eve" "pw") Sample.configured (VStr "eve") (VStr "pw"));
      reflexivity.
  - apply (HB Sample.direct_configured (VStr "eve") (VStr "pw")); reflexivity.
Defined.




Lemma exp_ok_Int (claims : value) (now e : Z) :
  prop claims "exp" = Int e -> Jwt.exp_ok claims now = (now / 1000 <? e).
Proof.
  intros He. unfold Jwt.exp_ok. rewrite He.
  unfold Int, Jwt.clock, number_ge, number_lt, inject_Z; cbn [Qnum Qden].
  now rewrite negb_involutive, !Z.mul_1_r.
Qed.



(** The expiry is counted in whole seconds: a token issued at 500 ms with a
    lifetime of 5 minutes has [expires = 300500] but is refused from 300000
    on. *)
Example expiry_counts_whole_seconds :
  fst (DirectApi.authenticate Sample.env 500 (VStr "ann") (VStr "pw")
         Sample.direct_configured)
  = Returned (Fulfilled (VObj [("token", Sample.token); ("expires", Int 300500)])) /\
  fst (DirectApi.authorize Sample.env 299999 Sample.token Sample.direct_configured)
  = Returned (Fulfilled (VObj [("exp", Int 300); ("sub", VStr "ann")])) /\
  fst (DirectApi.authorize Sample.env 300100 Sample.token Sample.direct_configured)
  = Returned (Rejected (set_property Jwt.TokenExpiredError "code" (Int 401))).
Proof. repeat split; vm_compute; reflexivity. Qed.

(** A lifetime of 2^1020 minutes is an integer of at least 5, so [auth]
    takes it; the product with 60 is beyond the doubles, and [expires] is
    [Infinity]. *)
Example expires_overflows :
  exists token,
    fst (DirectApi.authenticate Sample.env 0 (VStr "ann") (VStr "pw")
           (snd (DirectApi.auth Sample.secret Sample.path
                   (VObj [("tokenExpirationMinutes", Int (2 ^ 1020))])
                   DirectApi.unconfigured)))
    = Returned (Fulfilled (VObj [("token", VStr token);
                                 ("expires", VNum (Infinity false))])).
Proof. eexists. vm_compute. reflexivity. Qed.

(** When signing throws, the handler of [catch] rejects with what was
    thrown; after invalid credentials the first rejection stays. *)
Example signing_failure_rejects :
  fst (DirectApi.authenticate Sample.env 0 (VStr "ann") (VStr "pw")
         (DirectApi.set_secret (VStr "") Sample.direct_configured))
  = Returned (Rejected ReferenceJwt.no_secret) /\
  fst (DirectApi.authenticate Sample.env 0 (VStr "ann") (VStr "wrong")
         (DirectApi.set_secret (VStr "") Sample.direct_configured))
  = Returned (Rejected DirectApi.invalid_credentials).
Proof. split; reflexivity. Qed.

(** The sample token round-trips through the reference library. *)
Example sample_token_accepted :
  fst (RequestApi.authorize Sample.env 299999 (Sample.with_query_token Sample.token)
         Sample.configured)
  = Returned (Fulfilled (VObj [("exp", Int 300); ("sub", VStr "ann")])).
Proof. vm_compute. reflexivity. Qed.

Example sample_token_expired :
  exists e,
    fst (RequestApi.authorize Sample.env 300000 (Sample.with_query_token Sample.token)
           Sample.configured) = Returned (Rejected e) /\
    prop e "code" = Int 401.
Proof. eexists. split; vm_compute; reflexivity. Qed.

(** C4. [authorize] is fulfilled, with the decoded claims, exactly when the
    token is valid: well-formed, signed with the configured secret, expiry
    not passed.  Every other token is rejected with code 401: in particular
    one signed with another secret, a malformed one, an expired one. *)
Theorem authorize_iff_token_valid (env : collaborators) (now : Z) :
  (forall req st claims,
      truthy (token_of req) = true ->
      RequestApi.authorize env now req st = (Returned (Fulfilled claims), st) <->
      token_valid (jwt env) (RequestApi._secret st) now (token_of req) claims) /\
  (forall token st claims,
      DirectApi.authorize env now token st = (Returned (Fulfilled claims), st) <->
      token_valid (jwt env) (DirectApi._secret st) now token claims) /\
  (forall req st,
      (forall claims,
          ~ token_valid (jwt env) (RequestApi._secret st) now (token_of req) claims) ->
      exists e,
        RequestApi.authorize env now req st = (Returned (Rejected e), st) /\
        prop e "code" = Int 401) /\
  (forall token st,
      (forall claims, ~ token_valid (jwt env) (DirectApi._secret st) now token claims) ->
      exists e,
        DirectApi.authorize env now token st = (Returned (Rejected e), st) /\
        prop e "code" = Int 401) /\
  (forall payload key key' token claims,
      jwt_contract (jwt env) ->
      Jwt.sign (jwt env) payload (VStr key) = Jwt.Signed token ->
      key <> key' ->
      ~ token_valid (jwt env) (VStr key') now (VStr token) claims) /\
  (forall secret token claims,
      Jwt.decode (jwt env) token = None ->
      ~ token_valid (jwt env) secret now token claims) /\
  (forall secret token claims claims',
      Jwt.decode (jwt env) token = Some claims' -> Jwt.exp_ok claims' now = false ->
      ~ token_valid (jwt env) secret now token claims).
Proof.
  repeat apply conj.
  - intros req st claims Ht.
    rewrite request_authorize_run, Ht. split.
    + intros [= H]. apply verified_fulfilled, H.
    + intros H. apply verified_fulfilled in H. now rewrite H.
  - intros token st claims.
    rewrite direct_authorize_run. split.
    + intros [= H]. apply verified_fulfilled, H.
    + intros H. apply verified_fulfilled in H. now rewrite H.
  - intros req st Hinvalid. rewrite request_authorize_run.
    destruct (truthy (token_of req)).
    + destruct (verified_rejected (jwt env) (RequestApi._secret st) (token_of req) now)
        as (e & He & Hcode).
      * intros claims Hc. apply (Hinvalid claims), verified_fulfilled, Hc.
      * exists e. now rewrite He.
    + eexists; split; reflexivity.
  - intros token st Hinvalid. rewrite direct_authorize_run.
    destruct (verified_rejected (jwt env) (DirectApi._secret st) token now)
      as (e & He & Hcode).
    + intros claims Hc. apply (Hinvalid claims), verified_fulfilled, Hc.
    + exists e. now rewrite He.
  - intros payload key key' token claims Hjwt Hsign Hne (_ & Hsig & _).
    rewrite (other_secret_rejected _ Hjwt _ _ _ _ Hsign Hne) in Hsig. discriminate.
  - intros secret token claims Hdec (Hd & _). congruence.
  - intros secret token claims claims' Hdec Hexp (Hd & _ & He). congruence.
Qed.

Lemma authorize_iff_token_valid_witness :
  RequestApi.authorize Sample.env 299999 (Sample.with_query_token Sample.token)
    Sample.configured
  = (Returned (Fulfilled (VObj [("exp", Int 300); ("sub", VStr "ann")])),
     Sample.configured) /\
  (exists e,
      DirectApi.authorize Sample.env 299999 (VStr "not a token") Sample.direct_configured
        = (Returned (Rejected e), Sample.direct_configured) /\
      prop e "code" = Int 401) /\
  ~ token_valid ReferenceJwt.lib (VStr "other") 299999 Sample.token
      (VObj [("exp", Int 300); ("sub", VStr "ann")]).
Proof.
  destruct (authorize_iff_token_valid Sample.env 299999)
    as (Hreq & _ & _ & Hdirect & Hother & Hmalformed & _).
  split; [|split].
  - apply Hreq; [reflexivity|]. repeat split; vm_compute; reflexivity.
  - apply Hdirect. intros claims. apply Hmalformed. reflexivity.
  - apply (Hother (VObj [("exp", Int 300); ("sub", VStr "ann")]) "s3cret" "other").
    + exact reference_contract.
    + reflexivity.
    + discriminate.
Defined.

(** C6. A request with no token, neither in the query string nor in the
    authorization header, is rejected with the error "No authorization
    token." carrying code 401, and is not fulfilled with claims, whatever the
    verification primitive then says of the missing token. *)
Theorem missing_token_rejected (env : collaborators) (now : Z) (req : value)
    (st : RequestApi.state) :
  truthy (field req "query" "token") = false ->
  truthy (field req "headers" "authorization") = false ->
  RequestApi.authorize env now req st
    = (Returned (Rejected RequestApi.no_authorization_token), st) /\
  prop RequestApi.no_authorization_token "code" = Int 401 /\
  prop RequestApi.no_authorization_token "message" = VStr "No authorization token." /\
  forall claims,
    RequestApi.authorize env now req st <> (Returned (Fulfilled claims), st).
Proof.
  intros Hq Hh.
  assert (Ht : truthy (token_of req) = false).
  { unfold token_of. now rewrite Hh, Hq. }
  rewrite request_authorize_run, Ht.
  repeat split. discriminate.
Qed.

Lemma missing_token_rejected_witness :
  RequestApi.authorize Sample.env 0 (VObj [("query", VObj [])]) Sample.configured
    = (Returned (Rejected RequestApi.no_authorization_token), Sample.configured) /\
  RequestApi.authorize Sample.env 0 VUndefined Sample.configured
    = (Returned (Rejected RequestApi.no_authorization_token), Sample.configured).
Proof.
  split.
  - apply (missing_token_rejected Sample.env 0 (VObj [("query", VObj [])])
             Sample.configured); reflexivity.
  - apply (missing_token_rejected Sample.env 0 VUndefined Sample.configured);
      reflexivity.
Defined.

(** C7, as stated, fails: with a valid token in the query string and
    something else in the authorization header, the header is what gets
    verified, and the request is rejected although the query token alone
    would have been accepted. *)
Lemma query_token_overridden :
  field (Sample.with_both Sample.token (VStr "Bearer abc")) "query" "token"
    = Sample.token /\
  field (Sample.with_both Sample.token (VStr "Bearer abc")) "headers" "authorization"
    = VStr "Bearer abc" /\
  verified ReferenceJwt.lib Sample.secret 1000 Sample.token
    = Fulfilled (VObj [("exp", Int 300); ("sub", VStr "ann")]) /\
  RequestApi.authorize Sample.env 1000
    (Sample.with_both Sample.token (VStr "Bearer abc")) Sample.configured
    = (Returned
         (Rejected (set_property (Jwt.JsonWebTokenError "jwt malformed") "code" (Int 401))),
       Sample.configured) /\
  RequestApi.authorize Sample.env 1000
    (Sample.with_both Sample.token (VStr "Bearer abc")) Sample.configured
    <> (Returned
          (verified ReferenceJwt.lib Sample.secret 1000
             (field (Sample.with_both Sample.token (VStr "Bearer abc")) "query" "token")),
        Sample.configured).
Proof.
  repeat split; try (vm_compute; reflexivity).
  vm_compute. discriminate.
Qed.

(** C7, amended.  When the authorization header is present, its value is the
    token that is verified, whether or not the query string has one; the
    token of the query string is used when there is no authorization
    header. *)
Theorem authorization_header_preferred (env : collaborators) (now : Z) (req : value)
    (st : RequestApi.state) :
  (truthy (field req "headers" "authorization") = true ->
   RequestApi.authorize env now req st
     = (Returned (verified (jwt env) (RequestApi._secret st) now
                    (field req "headers" "authorization")), st)) /\
  (truthy (field req "headers" "authorization") = false ->
   truthy (field req "query" "token") = true ->
   RequestApi.authorize env now req st
     = (Returned (verified (jwt env) (RequestApi._secret st) now
                    (field req "query" "token")), st)).
Proof.
  split.
  - intros Hh. rewrite request_authorize_run. unfold token_of. now rewrite !Hh.
  - intros Hh Hq. rewrite request_authorize_run. unfold token_of. now rewrite Hh, !Hq.
Qed.

Lemma authorization_header_preferred_witness :
  RequestApi.authorize Sample.env 1000 (Sample.with_both (VStr "junk") Sample.token)
    Sample.configured
  = (Returned (verified ReferenceJwt.lib Sample.secret 1000 Sample.token),
     Sample.configured) /\
  RequestApi.authorize Sample.env 1000 (Sample.with_query_token Sample.token)
    Sample.configured
  = (Returned (verified ReferenceJwt.lib Sample.secret 1000 Sample.token),
     Sample.configured).
Proof.
  split.
  - apply (proj1 (authorization_header_preferred Sample.env 1000
                    (Sample.with_both (VStr "junk") Sample.token) Sample.configured)).
    reflexivity.
  - apply (proj2 (authorization_header_preferred Sample.env 1000
                    (Sample.with_query_token Sample.token) Sample.configured));
      reflexivity.
Defined.

(** C9. After a successful [auth], no run of calls of
    [authenticationSpecification], [authenticate] and [authorize] changes a
    module-level variable: after the run, and so before each call of it, the
    secret, the path of the user store, the lifetime and the [useHttp] flag
    are the ones [auth] stored. *)
Theorem configuration_unchanged (env : collaborators) (secret path options h : value)
    (st0 st : RequestApi.state) (calls : list call) :
  RequestApi.auth secret path options st0 = (Returned h, st) ->
  run env calls st = st /\
  RequestApi._secret (run env calls st) = secret /\
  RequestApi._userStoreFilePath (run env calls st) = path /\
  RequestApi._tokenExpirationMinutes (run env calls st)
    = js_or (prop options "tokenExpirationMinutes") (Int 60) /\
  RequestApi._useHttp (run env calls st) = js_or (prop options "useHttp") (VBool false).
Proof.
  intros Hauth.
  assert (Hrun : forall s, run env calls s = s).
  { induction calls as [|c rest IH]; intros s; simpl.
    - reflexivity.
    - rewrite state_after_same. apply IH. }
  rewrite Hrun.
  apply request_auth_returned in Hauth as (_ & -> & _).
  repeat split.
Qed.

Lemma configuration_unchanged_witness :
  run Sample.env
    [CallAuthenticate 0 (Sample.login "ann" "pw");
     CallAuthorize 1000 (Sample.with_query_token Sample.token);
     CallAuthenticationSpecification;
     CallAuthenticate 2000 VUndefined]
    Sample.configured
  = Sample.configured.
Proof.
  apply (configuration_unchanged Sample.env Sample.secret Sample.path Sample.lifetime_5
           handle RequestApi.unconfigured Sample.configured).
  reflexivity.
Defined.

(** The second edition keeps its variables too. *)
Lemma direct_configuration_unchanged (env : collaborators) (now : Z)
    (a b : value) (st : DirectApi.state) :
  snd (DirectApi.authenticate env now a b st) = st /\
  snd (DirectApi.authorize env now a st) = st /\
  snd (DirectApi.getAuthenticationSpecification a st) = st.
Proof.
  repeat split.
  - apply direct_authenticate_read_only.
  - apply direct_authorize_read_only.
Qed.

Lemma null_or_not (v : value) : v = VNull \/ v <> VNull.
Proof. destruct v; (left; reflexivity) || (right; discriminate). Qed.

(** The errors of [fs.stat] are not those of the two checks. *)
Lemma refusal_not_check (path : value) (message : string) :
  refusal path <> Thrown (new_Error message).
Proof. destruct path; discriminate. Qed.

(** [auth] throws the [useHttp] error only from the [useHttp] check. *)
Lemma request_auth_useHttp_error (secret path options : value) (st0 st : RequestApi.state) :
  RequestApi.auth secret path options st0 = (Thrown (new_Error useHttp_message), st) ->
  truthy (prop options "useHttp") = true /\
  typeof (prop options "useHttp") <> "boolean".
Proof.
  intros Hauth.
  destruct (accepted_path path) eqn:Hpath.
  2:{ rewrite request_auth_refused in Hauth by assumption.
      injection Hauth as Hauth _. now apply refusal_not_check in Hauth. }
  destruct (null_or_not options) as [->|Hnull].
  - rewrite request_auth_null in Hauth by assumption. discriminate.
  - rewrite request_auth_run in Hauth by assumption. cbv zeta in Hauth.
    destruct (truthy (prop options "useHttp")
              && negb (String.eqb (typeof (prop options "useHttp")) "boolean")) eqn:E.
    + apply andb_true_iff in E as [Ht Hty]. split; [exact Ht|].
      now apply negb_true_iff, String.eqb_neq in Hty.
    + destruct (truthy (prop options "tokenExpirationMinutes")
                && negb (integer_at_least_5 (prop options "tokenExpirationMinutes")));
        discriminate.
Qed.

(** C10. After a successful [auth] the stored flag is a boolean, and it is
    [true] only when [options.useHttp] is the boolean [true].  A falsy
    [useHttp] (absent, [false], 0, the empty string, [null], [NaN]) never
    makes [auth] throw the [useHttp] error and, when the path is one
    [fs.stat] takes and the lifetime option is acceptable, [auth] succeeds
    with the flag [false].  The [useHttp] error is thrown only for truthy
    values that are not booleans, and, on a path [fs.stat] takes, for every
    one of them. *)
Theorem useHttp_stored_as_boolean (secret path options : value) (st0 : RequestApi.state) :
  (forall h st,
      RequestApi.auth secret path options st0 = (Returned h, st) ->
      exists b, RequestApi._useHttp st = VBool b /\
                (b = true <-> prop options "useHttp" = VBool true)) /\
  (truthy (prop options "useHttp") = false ->
   (forall st, RequestApi.auth secret path options st0
               <> (Thrown (new_Error useHttp_message), st)) /\
   (forall h st, RequestApi.auth secret path options st0 = (Returned h, st) ->
                 RequestApi._useHttp st = VBool false) /\
   (accepted_path path = true ->
    options <> VNull ->
    (truthy (prop options "tokenExpirationMinutes") = true ->
     integer_at_least_5 (prop options "tokenExpirationMinutes") = true) ->
    exists st, RequestApi.auth secret path options st0 = (Returned handle, st) /\
               RequestApi._useHttp st = VBool false)) /\
  ((exists st, RequestApi.auth secret path options st0
               = (Thrown (new_Error useHttp_message), st)) ->
   truthy (prop options "useHttp") = true /\
   typeof (prop options "useHttp") <> "boolean") /\
  (accepted_path path = true ->
   truthy (prop options "useHttp") = true ->
   typeof (prop options "useHttp") <> "boolean" ->
   exists st, RequestApi.auth secret path options st0
              = (Thrown (new_Error useHttp_message), st)).
Proof.
  split; [|split; [|split]].
  - intros h st Hauth.
    apply request_auth_returned in Hauth as (_ & -> & Hbool & _). simpl.
    unfold js_or.
    destruct (truthy (prop options "useHttp")) eqn:Ht.
    + specialize (Hbool eq_refl).
      destruct (prop options "useHttp") as [| |b| | |]; try discriminate.
      simpl in Ht. subst b. exists true. split; [reflexivity|]. split; reflexivity.
    + exists false. split; [reflexivity|]. split; [discriminate|].
      intros Hu. rewrite Hu in Ht. discriminate.
  - intros Hfalsy. split; [|split].
    + intros st Hauth.
      apply request_auth_useHttp_error in Hauth as [Ht _]. congruence.
    + intros h st Hauth.
      apply request_auth_returned in Hauth as (_ & -> & _). simpl.
      unfold js_or. now rewrite Hfalsy.
    + intros Hpath Hnull Hm.
      rewrite request_auth_run by assumption. cbv zeta.
      rewrite Hfalsy. cbn [andb].
      destruct (truthy (prop options "tokenExpirationMinutes")) eqn:Et.
      * rewrite (Hm eq_refl). cbn [andb negb].
        eexists; split; [reflexivity|]. simpl. unfold js_or. now rewrite Hfalsy.
      * cbn [andb]. eexists; split; [reflexivity|]. simpl. unfold js_or.
        now rewrite Hfalsy.
  - intros [st Hauth]. apply (request_auth_useHttp_error _ _ _ _ _ Hauth).
  - intros Hpath Ht Hty.
    assert (Hnull : options <> VNull).
    { intros ->. discriminate Ht. }
    rewrite request_auth_run by assumption. cbv zeta.
    rewrite Ht. apply String.eqb_neq in Hty. rewrite Hty. cbn [andb negb].
    eexists; reflexivity.
Qed.

Lemma useHttp_stored_as_boolean_witness :
  (exists st,
      RequestApi.auth Sample.secret Sample.path (VObj [("useHttp", Int 0)])
        RequestApi.unconfigured = (Returned handle, st) /\
      RequestApi._useHttp st = VBool false) /\
  (exists st,
      RequestApi.auth Sample.secret Sample.path (VObj [("useHttp", VStr "yes")])
        RequestApi.unconfigured = (Thrown (new_Error useHttp_message), st)).
Proof.
  split.
  - destruct (useHttp_stored_as_boolean Sample.secret Sample.path
                (VObj [("useHttp", Int 0)]) RequestApi.unconfigured) as (_ & H & _).
    destruct (H eq_refl) as (_ & _ & Hok).
    apply Hok; [reflexivity|discriminate|discriminate].
  - destruct (useHttp_stored_as_boolean Sample.secret Sample.path
                (VObj [("useHttp", VStr "yes")]) RequestApi.unconfigured)
      as (_ & _ & _ & H).
    apply H; [reflexivity|reflexivity|discriminate].
Defined.

(** C5, as stated, fails: a lifetime of 0 is present and is not an integer
    of at least 5, yet [auth] returns the handle, in both editions, with the
    default lifetime of 60 minutes. *)
Lemma zero_lifetime_accepted :
  assoc "tokenExpirationMinutes" [("tokenExpirationMinutes", Int 0)] = Some (Int 0) /\
  integer_at_least_5 (Int 0) = false /\
  RequestApi.auth Sample.secret Sample.path (VObj [("tokenExpirationMinutes", Int 0)])
    RequestApi.unconfigured
  = (Returned handle,
     {| RequestApi._useHttp := VBool false;
        RequestApi._tokenExpirationMinutes := Int 60;
        RequestApi._secret := Sample.secret;
        RequestApi._userStoreFilePath := Sample.path |}) /\
  DirectApi.auth Sample.secret Sample.path (VObj [("tokenExpirationMinutes", Int 0)])
    DirectApi.unconfigured
  = (Returned handle,
     {| DirectApi._tokenExpirationMinutes := Int 60;
        DirectApi._secret := Sample.secret;
        DirectApi._userStoreFilePath := Sample.path |}).
Proof. repeat split. Qed.

(** C5, amended.  With a path [fs.stat] takes (a string without null byte),
    a [tokenExpirationMinutes] that is truthy and is not an integer of at
    least 5 makes [auth] throw, in both editions; in particular the value 3
    does, with the message of the lifetime check.  A falsy one (0, [NaN],
    the empty string, [null], [false]) counts as absent: the lifetime check
    does not throw and the default of 60 is stored. *)
Theorem bad_lifetime_rejected (secret path options : value) :
  (accepted_path path = true ->
   truthy (prop options "tokenExpirationMinutes") = true ->
   integer_at_least_5 (prop options "tokenExpirationMinutes") = false ->
   (forall st0, exists e st,
        RequestApi.auth secret path options st0 = (Thrown e, st) /\
        (e = new_Error tokenExpirationMinutes_message \/ e = new_Error useHttp_message)) /\
   (forall st0, exists st,
        DirectApi.auth secret path options st0
        = (Thrown (new_Error tokenExpirationMinutes_message), st))) /\
  (truthy (prop options "tokenExpirationMinutes") = false ->
   (forall st0 st,
       RequestApi.auth secret path options st0
       <> (Thrown (new_Error tokenExpirationMinutes_message), st)) /\
   (forall st0 h st,
       RequestApi.auth secret path options st0 = (Returned h, st) ->
       RequestApi._tokenExpirationMinutes st = Int 60) /\
   (accepted_path path = true ->
    options <> VNull ->
    forall st0, exists st,
       DirectApi.auth secret path options st0 = (Returned handle, st) /\
       DirectApi._tokenExpirationMinutes st = Int 60)) /\
  (accepted_path path = true ->
   forall st0, exists st,
      RequestApi.auth secret path (VObj [("tokenExpirationMinutes", Int 3)]) st0
      = (Thrown (new_Error tokenExpirationMinutes_message), st)) /\
  (accepted_path path = true ->
   forall st0, exists st,
      DirectApi.auth secret path (VObj [("tokenExpirationMinutes", Int 3)]) st0
      = (Thrown (new_Error tokenExpirationMinutes_message), st)).
Proof.
  split; [|split; [|split]].
  - intros Hpath Ht Hbad.
    assert (Hnull : options <> VNull).
    { intros ->. discriminate Ht. }
    split; intros st0.
    + rewrite request_auth_run by assumption. cbv zeta.
      rewrite Ht, Hbad. cbn [andb negb].
      destruct (truthy (prop options "useHttp")
                && negb (String.eqb (typeof (prop options "useHttp")) "boolean"));
        eexists; eexists; split; try reflexivity; auto.
    + rewrite direct_auth_run by assumption. cbv zeta.
      unfold js_or. rewrite Ht, Hbad. eexists; reflexivity.
  - intros Hfalsy. split; [|split].
    + intros st0 st Hauth.
      destruct (accepted_path path) eqn:Hpath.
      2:{ rewrite request_auth_refused in Hauth by assumption.
          injection Hauth as Hauth _. now apply refusal_not_check in Hauth. }
      destruct (null_or_not options) as [->|Hnull].
      * rewrite request_auth_null in Hauth by assumption. discriminate.
      * rewrite request_auth_run in Hauth by assumption. cbv zeta in Hauth.
        rewrite Hfalsy in Hauth. cbn [andb] in Hauth.
        destruct (truthy (prop options "useHttp")
                  && negb (String.eqb (typeof (prop options "useHttp")) "boolean"));
          discriminate.
    + intros st0 h st Hauth.
      apply request_auth_returned in Hauth as (_ & -> & _). simpl.
      unfold js_or. now rewrite Hfalsy.
    + intros Hpath Hnull st0.
      rewrite direct_auth_run by assumption. cbv zeta.
      unfold js_or. rewrite Hfalsy.
      eexists; split; reflexivity.
  - intros Hpath st0. rewrite request_auth_run by (assumption || discriminate).
    eexists; reflexivity.
  - intros Hpath st0. rewrite direct_auth_run by (assumption || discriminate).
    eexists; reflexivity.
Qed.

Lemma bad_lifetime_rejected_witness :
  (exists e st,
      RequestApi.auth Sample.secret Sample.path
        (VObj [("tokenExpirationMinutes", VStr "ten")]) RequestApi.unconfigured
      = (Thrown e, st) /\
      (e = new_Error tokenExpirationMinutes_message \/ e = new_Error useHttp_message)) /\
  (exists st,
      DirectApi.auth Sample.secret Sample.path
        (VObj [("tokenExpirationMinutes", VNum (Fin (11 # 2)))]) DirectApi.unconfigured
      = (Thrown (new_Error tokenExpirationMinutes_message), st)) /\
  (exists st,
      DirectApi.auth Sample.secret Sample.path
        (VObj [("tokenExpirationMinutes", VNum NaN)]) DirectApi.unconfigured
      = (Returned handle, st) /\
      DirectApi._tokenExpirationMinutes st = Int 60).
Proof.
  split; [|split].
  - destruct (bad_lifetime_rejected Sample.secret Sample.path
                (VObj [("tokenExpirationMinutes", VStr "ten")])) as (H & _).
    destruct (H eq_refl eq_refl eq_refl) as (HA & _). apply HA.
  - destruct (bad_lifetime_rejected Sample.secret Sample.path
                (VObj [("tokenExpirationMinutes", VNum (Fin (11 # 2)))])) as (H & _).
    destruct (H eq_refl eq_refl eq_refl) as (_ & HB). apply HB.
  - destruct (bad_lifetime_rejected Sample.secret Sample.path
                (VObj [("tokenExpirationMinutes", VNum NaN)])) as (_ & H & _).
    destruct (H eq_refl) as (_ & _ & HB). apply HB; [reflexivity|discriminate].
Defined.

(** * Further properties of the code *)

(** ** Reading the credentials (lines 61-67) *)

Lemma get_not_nullish (v : value) (k : string) :
  nullish v = false -> get v k = Returned (prop v k).
Proof. destruct v; simpl; try discriminate; reflexivity. Qed.

Lemma truthy_not_nullish (v : value) : truthy v = true -> nullish v = false.
Proof. destruct v; simpl; try discriminate; reflexivity. Qed.

Lemma get2_body {S} (req b : value) (k : string) (st : S) :
  get req "body" = Returned b -> nullish b = false ->
  get2 req "body" k st = (Returned (prop b k), st).
Proof.
  intros Hb Hn. unfold get2, bind, lift. rewrite Hb.
  now rewrite (get_not_nullish _ _ Hn).
Qed.

(** Reading a field of a missing body throws. *)
Lemma get2_no_body {S} (req : value) (k : string) (st : S) :
  nullish req = true \/ nullish (prop req "body") = true ->
  exists e, get2 req "body" k st = (Thrown e, st) /\ prop e "name" = VStr "TypeError".
Proof.
  intros H. unfold get2, bind, lift.
  destruct (nullish req) eqn:Hr.
  - destruct req; try discriminate; simpl; eexists; split; reflexivity.
  - destruct H as [H|H]; [discriminate|].
    rewrite (get_not_nullish _ _ Hr).
    destruct (prop req "body"); try discriminate; simpl; eexists; split; reflexivity.
Qed.

(** X1. When the query string holds a user name and a password, they are the
    credentials, and the body is not read: the request may have none. *)
Theorem query_credentials_win (req : value) (st : RequestApi.state) :
  truthy (field req "query" "username") = true ->
  truthy (field req "query" "password") = true ->
  RequestApi.request_credentials req st
  = (Returned (field req "query" "username", field req "query" "password"), st).
Proof.
  intros Hu Hp. unfold RequestApi.request_credentials, bind.
  rewrite guarded_field, Hu, (get2_field _ _ _ _ Hu).
  rewrite guarded_field, Hp, (get2_field _ _ _ _ Hp).
  rewrite Hu, Hp. reflexivity.
Qed.

Lemma query_credentials_win_witness :
  RequestApi.request_credentials (Sample.login "ann" "pw") Sample.configured
  = (Returned (VStr "ann", VStr "pw"), Sample.configured).
Proof.
  apply (query_credentials_win (Sample.login "ann" "pw") Sample.configured);
    reflexivity.
Defined.

(** X2. When the request has a body, each of the two credentials is taken
    from the query string if it is there, otherwise from the body, otherwise
    it is [undefined]; the two are chosen independently. *)
Theorem body_credentials_fallback (req b : value) (st : RequestApi.state) :
  get req "body" = Returned b ->
  nullish b = false ->
  let choose q k :=
    if truthy q then q else if truthy (prop b k) then prop b k else VUndefined in
  RequestApi.request_credentials req st
  = (Returned (choose (field req "query" "username") "username",
               choose (field req "query" "password") "password"), st).
Proof.
  intros Hb Hn choose. unfold RequestApi.request_credentials, bind, choose.
  rewrite guarded_field.
  destruct (truthy (field req "query" "username")) eqn:Hu.
  - rewrite (get2_field _ _ _ _ Hu), guarded_field.
    destruct (truthy (field req "query" "password")) eqn:Hp.
    + rewrite (get2_field _ _ _ _ Hp), Hu, Hp. reflexivity.
    + unfold ret at 1. rewrite Hu. cbn [negb js_and truthy ret].
      rewrite (get2_body _ _ _ _ Hb Hn).
      destruct (truthy (prop b "password")) eqn:Hbp.
      * now rewrite (get2_body _ _ _ _ Hb Hn).
      * reflexivity.
  - unfold ret at 1. rewrite guarded_field.
    destruct (truthy (field req "query" "password")) eqn:Hp.
    + rewrite (get2_field _ _ _ _ Hp). cbn [negb js_and truthy ret].
      rewrite (get2_body _ _ _ _ Hb Hn).
      destruct (truthy (prop b "username")) eqn:Hbu.
      * rewrite (get2_body _ _ _ _ Hb Hn), Hp. reflexivity.
      * rewrite Hp. reflexivity.
    + unfold ret at 1. cbn [negb js_and truthy ret].
      rewrite (get2_body _ _ _ _ Hb Hn).
      destruct (truthy (prop b "username")) eqn:Hbu.
      * rewrite (get2_body _ _ _ _ Hb Hn). cbn [negb js_and truthy ret].
        rewrite (get2_body _ _ _ _ Hb Hn).
        destruct (truthy (prop b "password")) eqn:Hbp.
        -- now rewrite (get2_body _ _ _ _ Hb Hn).
        -- reflexivity.
      * cbn [negb js_and truthy ret].
        rewrite (get2_body _ _ _ _ Hb Hn).
        destruct (truthy (prop b "password")) eqn:Hbp.
        -- now rewrite (get2_body _ _ _ _ Hb Hn).
        -- reflexivity.
Qed.

Lemma body_credentials_fallback_witness :
  RequestApi.request_credentials
    (VObj [("query", VObj [("password", VStr "pw")]);
           ("body", VObj [("username", VStr "ann"); ("password", VStr "other")])])
    Sample.configured
  = (Returned (VStr "ann", VStr "pw"), Sample.configured).
Proof.
  apply (body_credentials_fallback
           (VObj [("query", VObj [("password", VStr "pw")]);
                  ("body", VObj [("username", VStr "ann"); ("password", VStr "other")])])
           (VObj [("username", VStr "ann"); ("password", VStr "other")])
           Sample.configured); reflexivity.
Defined.

(** Without a body, a request whose query string lacks one of the two
    credentials makes the reading throw. *)
Lemma request_credentials_throw (req : value) (st : RequestApi.state) :
  nullish req = true \/ nullish (prop req "body") = true ->
  truthy (field req "query" "username") = false \/
  truthy (field req "query" "password") = false ->
  exists e,
    RequestApi.request_credentials req st = (Thrown e, st) /\
    prop e "name" = VStr "TypeError".
Proof.
  intros Hbody Hq. unfold RequestApi.request_credentials, bind.
  rewrite guarded_field.
  destruct (truthy (field req "query" "username")) eqn:Hu.
  - rewrite (get2_field _ _ _ _ Hu), guarded_field.
    destruct Hq as [Hq|Hq]; [discriminate|]. rewrite Hq.
    unfold ret at 1. rewrite Hu. cbn [negb js_and truthy ret].
    destruct (get2_no_body req "password" st Hbody) as (e & He & Hname).
    rewrite He. now exists e.
  - unfold ret at 1. rewrite guarded_field.
    destruct (get2_no_body req "username" st Hbody) as (e & He & Hname).
    destruct (truthy (field req "query" "password")) eqn:Hp.
    + rewrite (get2_field _ _ _ _ Hp). cbn [negb js_and truthy ret].
      rewrite He. now exists e.
    + unfold ret at 1. cbn [negb js_and truthy ret].
      rewrite He. now exists e.
Qed.

(** X3. A request without a body whose query string lacks the user name or
    the password (the request itself may be missing) gets a promise rejected
    with a [TypeError]; the credential-validation collaborator is not
    consulted, whatever it would have answered, and nothing is signed. *)
Theorem missing_body_rejected (env : collaborators) (now : Z) (req : value)
    (st : RequestApi.state) :
  nullish req = true \/ nullish (prop req "body") = true ->
  truthy (field req "query" "username") = false \/
  truthy (field req "query" "password") = false ->
  exists e,
    prop e "name" = VStr "TypeError" /\
    RequestApi.authenticate env now req st = (Returned (Rejected e), st) /\
    forall env', RequestApi.authenticate env' now req st = (Returned (Rejected e), st).
Proof.
  intros Hbody Hq.
  destruct (request_credentials_throw req st Hbody Hq) as (e & He & Hname).
  exists e. split; [exact Hname|].
  assert (H : forall env0,
             RequestApi.authenticate env0 now req st = (Returned (Rejected e), st)).
  { intros env0. unfold RequestApi.authenticate, new_Promise, bind.
    now rewrite He. }
  split; [apply H|exact H].
Qed.

Lemma missing_body_rejected_witness :
  exists e,
    prop e "name" = VStr "TypeError" /\
    RequestApi.authenticate Sample.env 0 (VObj [("query", VObj [("username", VStr "ann")])])
      Sample.configured = (Returned (Rejected e), Sample.configured) /\
    forall env',
      RequestApi.authenticate env' 0 (VObj [("query", VObj [("username", VStr "ann")])])
        Sample.configured = (Returned (Rejected e), Sample.configured).
Proof.
  apply (missing_body_rejected Sample.env 0
           (VObj [("query", VObj [("username", VStr "ann")])]) Sample.configured).
  - right. reflexivity.
  - right. reflexivity.
Defined.

(** The reading of the credentials returns or throws, and keeps the state. *)
Lemma settles_ret {S A} (a : A) : settles (@ret S A a).
Proof. intros st. left. now exists a. Qed.

Lemma settles_get {S} (v : value) (k : string) : settles (@lift S value (get v k)).
Proof.
  intros st. unfold lift.
  destruct v; simpl; try (left; eexists; reflexivity); right; eexists; reflexivity.
Qed.

Lemma settles_bind {S A B} (m : M S A) (f : A -> M S B) :
  settles m -> (forall a, settles (f a)) -> settles (bind m f).
Proof.
  intros Hm Hf st. unfold bind.
  destruct (Hm st) as [[a ->]|[e ->]].
  - apply Hf.
  - right. now exists e.
Qed.

Lemma settles_js_and {S} (a : value) (b : M S value) :
  settles b -> settles (js_and a b).
Proof. intros Hb. unfold js_and. destruct (truthy a); auto using settles_ret. Qed.

Lemma settles_get2 {S} (req : value) (k1 k2 : string) : settles (@get2 S req k1 k2).
Proof. apply settles_bind; intros; apply settles_get. Qed.

Lemma settles_guarded {S} (req : value) (k1 k2 : string) : settles (@guarded S req k1 k2).
Proof. intros st. left. eexists. apply guarded_field. Qed.

Lemma request_credentials_settles (req : value) :
  settles (RequestApi.request_credentials req).
Proof.
  unfold RequestApi.request_credentials.
  repeat first
    [ apply settles_ret | apply settles_get2 | apply settles_guarded
    | apply settles_get | apply settles_js_and
    | apply settles_bind; [|intros]
    | match goal with
      | |- settles (if ?c then _ else _) => destruct c
      end ].
Qed.

(** X4. Neither edition of [authenticate] throws to its caller after a
    successful [auth]: whatever the request or the arguments, be they
    [undefined], the call returns a promise and leaves the variables alone.
    [authorize] does so in any state. *)
Theorem calls_return_promises (env : collaborators) (now : Z) :
  (forall secret path options h st0 st req,
      RequestApi.auth secret path options st0 = (Returned h, st) ->
      exists p, RequestApi.authenticate env now req st = (Returned p, st)) /\
  (forall secret path options h st0 st u pw,
      DirectApi.auth secret path options st0 = (Returned h, st) ->
      exists p, DirectApi.authenticate env now u pw st = (Returned p, st)) /\
  (forall req st, exists p, RequestApi.authorize env now req st = (Returned p, st)) /\
  (forall token st, exists p, DirectApi.authorize env now token st = (Returned p, st)).
Proof.
  repeat apply conj.
  - intros secret path options h st0 st req Hauth.
    destruct (request_auth_lifetime _ _ _ _ _ _ Hauth) as (m & Hm & _).
    apply integer_is_number in Hm as (q & Hm & _).
    destruct (request_credentials_settles req st) as [[[u pw] Hc]|[e He]].
    + destruct (validateCredentials env u pw (RequestApi._userStoreFilePath st)) eqn:Hv.
      * eexists. unfold RequestApi.authenticate, new_Promise, bind. rewrite Hc.
        unfold read. rewrite Hv. reflexivity.
      * eexists. apply (request_authenticate_run _ _ _ _ _ _ _ _ Hc Hv Hm).
      * eexists. unfold RequestApi.authenticate, new_Promise, bind. rewrite Hc.
        unfold read. rewrite Hv. reflexivity.
    + eexists. unfold RequestApi.authenticate, new_Promise, bind. rewrite He.
      reflexivity.
  - intros secret path options h st0 st u pw Hauth.
    apply direct_auth_returned in Hauth as (_ & _ & m & Hm & _).
    apply integer_is_number in Hm as (q & Hm & _).
    destruct (validateCredentials env u pw (DirectApi._userStoreFilePath st)) eqn:Hv.
    + eexists. unfold DirectApi.authenticate, new_Promise, bind, read. rewrite Hv.
      reflexivity.
    + eexists. apply (direct_authenticate_run _ _ _ _ _ _ _ Hv Hm).
    + eexists. unfold DirectApi.authenticate, new_Promise, bind, read. rewrite Hv.
      reflexivity.
  - intros req st. eexists. apply request_authorize_run.
  - intros token st. eexists. apply direct_authorize_run.
Qed.

Lemma calls_return_promises_witness :
  exists p,
    RequestApi.authenticate Sample.env 0 VUndefined Sample.configured
    = (Returned p, Sample.configured).
Proof.
  destruct (calls_return_promises Sample.env 0) as (H & _).
  apply (H Sample.secret Sample.path Sample.lifetime_5 handle RequestApi.unconfigured).
  reflexivity.
Defined.

(** ** Configuring again, and failing to *)

Lemma checked_flag_boolean (u : value) :
  truthy u && negb (String.eqb (typeof u) "boolean") = false ->
  exists b, js_or u (VBool false) = VBool b.
Proof.
  unfold js_or. destruct (truthy u) eqn:Ht; [|now exists false].
  destruct u; simpl; try discriminate. intros _. now exists b.
Qed.

Lemma checked_lifetime (m : value) :
  truthy m && negb (integer_at_least_5 m) = false ->
  integer_at_least_5 (js_or m (Int 60)) = true.
Proof.
  unfold js_or. destruct (truthy m); simpl.
  - now intros H%negb_false_iff.
  - intros _. unfold integer_at_least_5. now rewrite integer_value_Int.
Qed.

(** The state any call of [auth] of the first edition leaves, returning or
    throwing: the lifetime and the flag are the old ones or checked ones. *)
Lemma request_auth_state (secret path options : value) (st0 : RequestApi.state) :
  let st := snd (RequestApi.auth secret path options st0) in
  (RequestApi._tokenExpirationMinutes st = RequestApi._tokenExpirationMinutes st0 \/
   integer_at_least_5 (RequestApi._tokenExpirationMinutes st) = true) /\
  (RequestApi._useHttp st = RequestApi._useHttp st0 \/
   exists b, RequestApi._useHttp st = VBool b).
Proof.
  cbv zeta. destruct (accepted_path path) eqn:Hpath.
  2:{ rewrite request_auth_refused by assumption. simpl. auto. }
  destruct (null_or_not options) as [->|Hnull].
  - rewrite request_auth_null by assumption. simpl. auto.
  - rewrite request_auth_run by assumption. cbv zeta.
    destruct (truthy (prop options "useHttp")
              && negb (String.eqb (typeof (prop options "useHttp")) "boolean")) eqn:E1.
    + simpl. auto.
    + apply checked_flag_boolean in E1.
      destruct (truthy (prop options "tokenExpirationMinutes")
                && negb (integer_at_least_5 (prop options "tokenExpirationMinutes")))
        eqn:E2.
      * simpl. auto.
      * apply checked_lifetime in E2. simpl. auto.
Qed.

Lemma step_sound (env : collaborators) (ev : event) (st : RequestApi.state) :
  sound st -> sound (step env ev st).
Proof.
  intros [Hl Hf]. destruct ev as [secret path options|c]; simpl.
  - destruct (request_auth_state secret path options st) as (Hl' & Hf').
    split.
    + destruct Hl' as [->|Hl']; auto.
    + destruct Hf' as [->|Hf']; auto.
  - rewrite state_after_same. now split.
Qed.

Lemma step_lifetime (env : collaborators) (ev : event) (st : RequestApi.state) :
  integer_at_least_5 (RequestApi._tokenExpirationMinutes st) = true ->
  integer_at_least_5 (RequestApi._tokenExpirationMinutes (step env ev st)) = true.
Proof.
  intros Hl. destruct ev as [secret path options|c]; simpl.
  - destruct (request_auth_state secret path options st) as ([->|Hl'] & _);
      assumption.
  - now rewrite state_after_same.
Qed.

Lemma history_sound (env : collaborators) (events : list event) :
  forall st, sound st -> sound (history env events st).
Proof.
  induction events as [|ev rest IH]; intros st H; simpl; [exact H|].
  apply IH, step_sound, H.
Qed.

Lemma history_lifetime (env : collaborators) (events : list event) :
  forall st,
    integer_at_least_5 (RequestApi._tokenExpirationMinutes st) = true ->
    integer_at_least_5 (RequestApi._tokenExpirationMinutes (history env events st)) = true.
Proof.
  induction events as [|ev rest IH]; intros st H; simpl; [exact H|].
  apply IH, step_lifetime, H.
Qed.

(** X5. In the first edition, through any history of calls ([auth] with any
    arguments, returning or throwing, and the three functions of the
    handle), the stored lifetime is unset or an integer of at least 5 and the
    stored flag is unset or a boolean; once the lifetime is an integer of at
    least 5 it stays one, so a failed reconfiguration never leaves a lifetime
    [authenticate] cannot use. *)
Theorem configuration_stays_sound (env : collaborators) (events : list event) :
  sound (history env events RequestApi.unconfigured) /\
  (forall st, sound st -> sound (history env events st)) /\
  (forall st,
      integer_at_least_5 (RequestApi._tokenExpirationMinutes st) = true ->
      integer_at_least_5
        (RequestApi._tokenExpirationMinutes (history env events st)) = true).
Proof.
  split; [|split].
  - apply history_sound. split; left; reflexivity.
  - apply history_sound.
  - apply history_lifetime.
Qed.

Lemma configuration_stays_sound_witness :
  integer_at_least_5
    (RequestApi._tokenExpirationMinutes
       (history Sample.env
          [Configure (VStr "k2") Sample.path (VObj [("tokenExpirationMinutes", Int 3)]);
           Use (CallAuthenticate 0 (Sample.login "ann" "pw"));
           Configure VUndefined VUndefined VNull]
          Sample.configured)) = true.
Proof.
  destruct (configuration_stays_sound Sample.env
              [Configure (VStr "k2") Sample.path (VObj [("tokenExpirationMinutes", Int 3)]);
               Use (CallAuthenticate 0 (Sample.login "ann" "pw"));
               Configure VUndefined VUndefined VNull]) as (_ & _ & H).
  apply H. reflexivity.
Defined.

(** X6. In the second edition, once [fs.stat] has taken the path (a string
    without null byte), the lifetime is stored before it is checked: an
    [auth] that throws on a lifetime leaves that lifetime, the new secret and
    the new path in the variables, and when the rejected lifetime is an
    integer below 5, the tokens [authenticate] issues from then on expire
    after that many minutes (the time of expiry being non-negative and at
    most 2^53, where the arithmetic on doubles is exact). *)
Theorem direct_rejected_lifetime_is_stored (secret path options : value)
    (st0 : DirectApi.state) :
  accepted_path path = true ->
  truthy (prop options "tokenExpirationMinutes") = true ->
  integer_at_least_5 (prop options "tokenExpirationMinutes") = false ->
  exists st,
    DirectApi.auth secret path options st0
      = (Thrown (new_Error tokenExpirationMinutes_message), st) /\
    DirectApi._tokenExpirationMinutes st = prop options "tokenExpirationMinutes" /\
    DirectApi._secret st = secret /\
    DirectApi._userStoreFilePath st = path /\
    forall env now u pw valid minutes token,
      prop options "tokenExpirationMinutes" = Int minutes ->
      Z.abs (minutes * 60000) <= safe ->
      0 <= now + minutes * 60000 <= safe ->
      validateCredentials env u pw path = Fulfilled valid ->
      truthy valid = true ->
      Jwt.sign (jwt env)
        (VObj [("exp", Int ((now + minutes * 60000) / 1000)); ("sub", u)]) secret
        = Jwt.Signed token ->
      DirectApi.authenticate env now u pw st
        = (Returned
             (Fulfilled (VObj [("token", VStr token);
                               ("expires", Int (now + minutes * 60000))])), st).
Proof.
  intros Hpath Ht Hbad.
  assert (Hnull : options <> VNull) by (intros ->; discriminate Ht).
  rewrite direct_auth_run by assumption. cbv zeta.
  unfold js_or. rewrite Ht, Hbad.
  set (st := DirectApi.set_tokenExpirationMinutes _ _).
  exists st. split; [reflexivity|].
  split; [reflexivity|split; [reflexivity|split; [reflexivity|]]].
  intros env now u pw valid minutes token Hm Habs Hsum Hv Hvalid Hsign.
  assert (Hm' : integer_value (DirectApi._tokenExpirationMinutes st) = Some minutes).
  { change (DirectApi._tokenExpirationMinutes st)
      with (prop options "tokenExpirationMinutes").
    rewrite Hm. apply integer_value_Int. }
  apply integer_is_number in Hm' as (q & Hn & Hq).
  change path with (DirectApi._userStoreFilePath st) in Hv.
  rewrite (direct_authenticate_run _ _ _ _ _ _ _ Hv Hn), Hvalid.
  rewrite (issued_exact _ _ _ _ _ _ _ Hq Habs Hsum).
  change (DirectApi._secret st) with secret.
  now rewrite Hsign.
Qed.

Lemma direct_rejected_lifetime_is_stored_witness :
  exists st,
    DirectApi.auth Sample.secret Sample.path (VObj [("tokenExpirationMinutes", Int 1)])
      Sample.direct_configured
      = (Thrown (new_Error tokenExpirationMinutes_message), st) /\
    DirectApi._tokenExpirationMinutes st = Int 1 /\
    DirectApi.authenticate Sample.env 0 (VStr "ann") (VStr "pw") st
      = (Returned
           (Fulfilled
              (VObj [("token",
                      VStr (ReferenceJwt.token_text
                              (VObj [("exp", Int 60); ("sub", VStr "ann")]) "s3cret"));
                     ("expires", Int 60000)])), st).
Proof.
  destruct (direct_rejected_lifetime_is_stored Sample.secret Sample.path
              (VObj [("tokenExpirationMinutes", Int 1)]) Sample.direct_configured
              eq_refl eq_refl eq_refl) as (st & Hauth & Hl & _ & _ & Hissue).
  exists st. split; [exact Hauth|split; [exact Hl|]].
  apply (Hissue Sample.env 0 (VStr "ann") (VStr "pw") (VBool true) 1);
    try reflexivity; easy.
Defined.

(** X7. In the first edition an [auth] that throws has either been stopped
    by [fs.stat], on a path that is not a string without null byte, and has
    then changed nothing and thrown a [TypeError]; or it has already replaced
    the secret and the path of the user store, and has left the lifetime as
    it was. *)
Theorem request_failed_auth_state (secret path options e : value)
    (st0 st : RequestApi.state) :
  RequestApi.auth secret path options st0 = (Thrown e, st) ->
  (accepted_path path = false ->
   st = st0 /\ prop e "name" = VStr "TypeError") /\
  (accepted_path path = true ->
   RequestApi._secret st = secret /\
   RequestApi._userStoreFilePath st = path /\
   RequestApi._tokenExpirationMinutes st = RequestApi._tokenExpirationMinutes st0).
Proof.
  intros Hauth. split; intros Hpath.
  - rewrite request_auth_refused in Hauth by assumption.
    injection Hauth as He <-. split; [reflexivity|].
    destruct path; simpl in He; injection He as <-; reflexivity.
  - destruct (null_or_not options) as [->|Hnull].
    + rewrite request_auth_null in Hauth by assumption.
      injection Hauth as _ <-. repeat split.
    + rewrite request_auth_run in Hauth by assumption. cbv zeta in Hauth.
      destruct (truthy (prop options "useHttp")
                && negb (String.eqb (typeof (prop options "useHttp")) "boolean")).
      * injection Hauth as _ <-. repeat split.
      * destruct (truthy (prop options "tokenExpirationMinutes")
                  && negb (integer_at_least_5 (prop options "tokenExpirationMinutes"))).
        -- injection Hauth as _ <-. repeat split.
        -- discriminate.
Qed.

Lemma request_failed_auth_state_witness :
  (RequestApi._secret
     (snd (RequestApi.auth (VStr "new") (VStr "other.json") (VObj [("useHttp", Int 1)])
             Sample.configured)) = VStr "new" /\
   RequestApi._userStoreFilePath
     (snd (RequestApi.auth (VStr "new") (VStr "other.json") (VObj [("useHttp", Int 1)])
             Sample.configured)) = VStr "other.json" /\
   RequestApi._tokenExpirationMinutes
     (snd (RequestApi.auth (VStr "new") (VStr "other.json") (VObj [("useHttp", Int 1)])
             Sample.configured)) = Int 5) /\
  snd (RequestApi.auth (VStr "new") (Int 7) (VObj [("useHttp", Int 1)]) Sample.configured)
  = Sample.configured.
Proof.
  split.
  - apply (request_failed_auth_state (VStr "new") (VStr "other.json")
             (VObj [("useHttp", Int 1)]) (new_Error useHttp_message) Sample.configured
             (snd (RequestApi.auth (VStr "new") (VStr "other.json")
                     (VObj [("useHttp", Int 1)]) Sample.configured)) eq_refl).
    reflexivity.
  - apply (request_failed_auth_state (VStr "new") (Int 7)
             (VObj [("useHttp", Int 1)]) (node_error "ERR_INVALID_ARG_TYPE")
             Sample.configured
             (snd (RequestApi.auth (VStr "new") (Int 7)
                     (VObj [("useHttp", Int 1)]) Sample.configured)) eq_refl).
    reflexivity.
Defined.

(** X8. What [auth] answers (the handle, or which error) depends on its
    arguments alone, and a successful [auth] replaces the whole
    configuration: the state it leaves does not depend on what was
    configured before.  Both editions. *)
Theorem auth_replaces_configuration (secret path options : value) :
  (forall st0 st0',
      fst (RequestApi.auth secret path options st0)
      = fst (RequestApi.auth secret path options st0')) /\
  (forall h st0 st,
      RequestApi.auth secret path options st0 = (Returned h, st) ->
      forall st0', RequestApi.auth secret path options st0' = (Returned h, st)) /\
  (forall st0 st0',
      fst (DirectApi.auth secret path options st0)
      = fst (DirectApi.auth secret path options st0')) /\
  (forall h st0 st,
      DirectApi.auth secret path options st0 = (Returned h, st) ->
      forall st0', DirectApi.auth secret path options st0' = (Returned h, st)).
Proof.
  repeat apply conj.
  - intros st0 st0'. destruct (accepted_path path) eqn:Hpath.
    2:{ now rewrite !request_auth_refused by assumption. }
    destruct (null_or_not options) as [->|Hnull].
    + now rewrite !request_auth_null by assumption.
    + rewrite !request_auth_run by assumption. cbv zeta.
      destruct (truthy (prop options "useHttp")
                && negb (String.eqb (typeof (prop options "useHttp")) "boolean"));
        [reflexivity|].
      destruct (truthy (prop options "tokenExpirationMinutes")
                && negb (integer_at_least_5 (prop options "tokenExpirationMinutes")));
        reflexivity.
  - intros h st0 st Hauth st0'.
    pose proof (request_auth_path _ _ _ _ _ _ Hauth) as Hpath.
    assert (Hnull : options <> VNull).
    { intros ->. rewrite request_auth_null in Hauth by assumption. discriminate. }
    rewrite request_auth_run in Hauth |- * by assumption. cbv zeta in *.
    destruct (truthy (prop options "useHttp")
              && negb (String.eqb (typeof (prop options "useHttp")) "boolean"));
      [discriminate|].
    destruct (truthy (prop options "tokenExpirationMinutes")
              && negb (integer_at_least_5 (prop options "tokenExpirationMinutes")));
      [discriminate|].
    injection Hauth as <- <-. reflexivity.
  - intros st0 st0'. destruct (accepted_path path) eqn:Hpath.
    2:{ now rewrite !direct_auth_refused by assumption. }
    destruct (null_or_not options) as [->|Hnull].
    + now rewrite !direct_auth_null by assumption.
    + rewrite !direct_auth_run by assumption. cbv zeta.
      destruct (integer_at_least_5
                  (js_or (prop options "tokenExpirationMinutes")
                     DirectApi.TOKEN_EXPIRATION_MINTUES)); reflexivity.
  - intros h st0 st Hauth st0'.
    pose proof (direct_auth_path _ _ _ _ _ _ Hauth) as Hpath.
    assert (Hnull : options <> VNull).
    { intros ->. rewrite direct_auth_null in Hauth by assumption. discriminate. }
    rewrite direct_auth_run in Hauth |- * by assumption. cbv zeta in *.
    destruct (integer_at_least_5
                (js_or (prop options "tokenExpirationMinutes")
                   DirectApi.TOKEN_EXPIRATION_MINTUES)); [|discriminate].
    injection Hauth as <- <-. reflexivity.
Qed.

Lemma auth_replaces_configuration_witness :
  RequestApi.auth Sample.secret Sample.path Sample.lifetime_5
    {| RequestApi._useHttp := VBool true;
       RequestApi._tokenExpirationMinutes := Int 90;
       RequestApi._secret := VStr "old";
       RequestApi._userStoreFilePath := VStr "old.json" |}
  = (Returned handle, Sample.configured).
Proof.
  destruct (auth_replaces_configuration Sample.secret Sample.path Sample.lifetime_5)
    as (_ & H & _).
  apply (H handle RequestApi.unconfigured). reflexivity.
Defined.

(** X9. Given a path [fs.stat] takes (a string without null byte): without
    options, with options that are not an object, or with an object that has
    neither key, [auth] returns the handle and stores the defaults: a
    lifetime of 60 minutes (and, in the first edition, the flag [false]).
    With [null] for options, both editions throw a [TypeError] after having
    stored the secret and the path. *)
Theorem auth_defaults (secret path options : value) :
  accepted_path path = true ->
  (options <> VNull ->
   prop options "useHttp" = VUndefined ->
   prop options "tokenExpirationMinutes" = VUndefined ->
   (forall st0,
       RequestApi.auth secret path options st0
       = (Returned handle,
          {| RequestApi._useHttp := VBool false;
             RequestApi._tokenExpirationMinutes := Int 60;
             RequestApi._secret := secret;
             RequestApi._userStoreFilePath := path |})) /\
   (forall st0,
       DirectApi.auth secret path options st0
       = (Returned handle,
          {| DirectApi._tokenExpirationMinutes := Int 60;
             DirectApi._secret := secret;
             DirectApi._userStoreFilePath := path |}))) /\
  (options = VNull ->
   (forall st0, exists e st,
       RequestApi.auth secret path options st0 = (Thrown e, st) /\
       prop e "name" = VStr "TypeError" /\
       RequestApi._secret st = secret /\ RequestApi._userStoreFilePath st = path) /\
   (forall st0, exists e st,
       DirectApi.auth secret path options st0 = (Thrown e, st) /\
       prop e "name" = VStr "TypeError" /\
       DirectApi._secret st = secret /\ DirectApi._userStoreFilePath st = path)).
Proof.
  intros Hpath. split.
  - intros Hnull Hu Hm. split; intros st0.
    + rewrite request_auth_run by assumption. cbv zeta. rewrite Hu, Hm. reflexivity.
    + rewrite direct_auth_run by assumption. cbv zeta. rewrite Hm. reflexivity.
  - intros ->. split; intros st0.
    + rewrite request_auth_null by assumption.
      eexists; eexists; (split; [reflexivity|repeat split]).
    + rewrite direct_auth_null by assumption.
      eexists; eexists; (split; [reflexivity|repeat split]).
Qed.

Lemma auth_defaults_witness :
  RequestApi.auth Sample.secret Sample.path VUndefined RequestApi.unconfigured
  = (Returned handle,
     {| RequestApi._useHttp := VBool false;
        RequestApi._tokenExpirationMinutes := Int 60;
        RequestApi._secret := Sample.secret;
        RequestApi._userStoreFilePath := Sample.path |}) /\
  DirectApi.auth Sample.secret Sample.path (VStr "minutes=3") DirectApi.unconfigured
  = (Returned handle,
     {| DirectApi._tokenExpirationMinutes := Int 60;
        DirectApi._secret := Sample.secret;
        DirectApi._userStoreFilePath := Sample.path |}).
Proof.
  split.
  - destruct (auth_defaults Sample.secret Sample.path VUndefined eq_refl) as (H & _).
    apply H; [discriminate|reflexivity|reflexivity].
  - destruct (auth_defaults Sample.secret Sample.path (VStr "minutes=3") eq_refl)
      as (H & _).
    apply H; [discriminate|reflexivity|reflexivity].
Defined.

(** X10. After a successful [auth], [authenticationSpecification] answers
    [{useHttp: b}] with [b] a boolean that is [true] exactly when
    [options.useHttp] was the boolean [true], however many calls of the three
    functions of the handle were made in between. *)
Theorem specification_reports_flag (env : collaborators)
    (secret path options h : value) (st0 st : RequestApi.state) (calls : list call) :
  RequestApi.auth secret path options st0 = (Returned h, st) ->
  exists b,
    RequestApi.authenticationSpecification (run env calls st)
      = (Returned (VObj [("useHttp", VBool b)]), st) /\
    (b = true <-> prop options "useHttp" = VBool true).
Proof.
  intros Hauth.
  assert (Hrun : forall s, run env calls s = s).
  { induction calls as [|c rest IH]; intros s; simpl; [reflexivity|].
    rewrite state_after_same. apply IH. }
  rewrite Hrun.
  apply request_auth_returned in Hauth as (_ & -> & Hbool & _).
  unfold RequestApi.authenticationSpecification, bind, read, ret. cbn [RequestApi._useHttp].
  unfold js_or. destruct (truthy (prop options "useHttp")) eqn:Ht.
  - specialize (Hbool eq_refl).
    destruct (prop options "useHttp") as [| |b| | |]; try discriminate.
    simpl in Ht. subst b. exists true. split; [reflexivity|]. split; reflexivity.
  - exists false. split; [reflexivity|]. split; [discriminate|].
    intros Hu. rewrite Hu in Ht. discriminate.
Qed.

Lemma specification_reports_flag_witness :
  exists b,
    RequestApi.authenticationSpecification
      (run Sample.env [CallAuthorize 0 VUndefined] Sample.configured)
      = (Returned (VObj [("useHttp", VBool b)]), Sample.configured) /\
    (b = true <-> prop Sample.lifetime_5 "useHttp" = VBool true).
Proof.
  apply (specification_reports_flag Sample.env Sample.secret Sample.path
           Sample.lifetime_5 handle RequestApi.unconfigured Sample.configured).
  reflexivity.
Defined.

(** ** The two editions side by side *)

(** X11. The first edition is the second applied to what it reads from the
    request: when the three variables they share hold the same values,
    [authenticate (req)] settles as [authenticate (username, password)] does
    on the credentials read from [req], and [authorize (req)] settles as
    [authorize (token)] does on the token read from [req] when there is one.
    Only the first edition rejects a missing token itself. *)
Theorem editions_agree (env : collaborators) (now : Z) (req : value)
    (st : RequestApi.state) (st' : DirectApi.state) :
  DirectApi._secret st' = RequestApi._secret st ->
  DirectApi._userStoreFilePath st' = RequestApi._userStoreFilePath st ->
  DirectApi._tokenExpirationMinutes st' = RequestApi._tokenExpirationMinutes st ->
  (forall u pw,
      RequestApi.request_credentials req st = (Returned (u, pw), st) ->
      fst (RequestApi.authenticate env now req st)
      = fst (DirectApi.authenticate env now u pw st')) /\
  (truthy (token_of req) = true ->
   fst (RequestApi.authorize env now req st)
   = fst (DirectApi.authorize env now (token_of req) st')) /\
  (truthy (token_of req) = false ->
   fst (RequestApi.authorize env now req st)
   = Returned (Rejected RequestApi.no_authorization_token)).
Proof.
  intros Hs Hp Hm. split; [|split].
  - intros u pw Hc.
    unfold RequestApi.authenticate, DirectApi.authenticate, new_Promise, bind.
    rewrite Hc. unfold read. rewrite Hp.
    destruct (validateCredentials env u pw (RequestApi._userStoreFilePath st));
      try reflexivity.
    cbv beta. rewrite Hm. unfold numeric.
    destruct (to_number (RequestApi._tokenExpirationMinutes st)); [|reflexivity].
    unfold ret. rewrite Hs. destruct (Jwt.sign _ _ _); reflexivity.
  - intros Ht. now rewrite request_authorize_run, direct_authorize_run, Ht, Hs.
  - intros Ht. now rewrite request_authorize_run, Ht.
Qed.

Lemma editions_agree_witness :
  fst (RequestApi.authenticate Sample.env 0 (Sample.login "ann" "pw") Sample.configured)
  = fst (DirectApi.authenticate Sample.env 0 (VStr "ann") (VStr "pw")
           Sample.direct_configured) /\
  fst (RequestApi.authorize Sample.env 0 (Sample.with_query_token Sample.token)
         Sample.configured)
  = fst (DirectApi.authorize Sample.env 0 Sample.token Sample.direct_configured).
Proof.
  destruct (editions_agree Sample.env 0 (Sample.login "ann" "pw")
              Sample.configured Sample.direct_configured eq_refl eq_refl eq_refl)
    as (Hauth & _).
  destruct (editions_agree Sample.env 0 (Sample.with_query_token Sample.token)
              Sample.configured Sample.direct_configured eq_refl eq_refl eq_refl)
    as (_ & Htok & _).
  split.
  - apply Hauth. reflexivity.
  - apply Htok. reflexivity.
Defined.

(** ** The second edition's tokens *)

(** X12. In the second edition, after a successful [auth], accepted
    credentials get [{token, expires}] with [expires] at least five minutes
    after the current time, and the expiry signed into the token, in whole
    seconds, is not after [expires] and less than a second before it; this
    for a current time that is not negative and a time of expiry of at most
    2^53, where the arithmetic on doubles is exact. *)
Theorem direct_token_issued (env : collaborators) (secret path options h : value)
    (st0 st : DirectApi.state) (now : Z) (u pw valid : value) :
  DirectApi.auth secret path options st0 = (Returned h, st) ->
  validateCredentials env u pw path = Fulfilled valid ->
  truthy valid = true ->
  0 <= now ->
  exists minutes,
    integer_value (js_or (prop options "tokenExpirationMinutes") (Int 60)) = Some minutes /\
    let expires := now + minutes * 60000 in
    let exp := expires / 1000 in
    now + 300000 <= expires /\
    exp * 1000 <= expires < exp * 1000 + 1000 /\
    (expires <= safe ->
     forall token,
       Jwt.sign (jwt env) (VObj [("exp", Int exp); ("sub", u)]) secret = Jwt.Signed token ->
       DirectApi.authenticate env now u pw st
       = (Returned (Fulfilled (VObj [("token", VStr token); ("expires", Int expires)])),
          st)).
Proof.
  intros Hauth Hv Hvalid Hnow.
  apply direct_auth_returned in Hauth as (_ & Hst & m & Hm & Hge).
  assert (Hp : DirectApi._userStoreFilePath st = path) by (subst st; reflexivity).
  assert (Hs : DirectApi._secret st = secret) by (subst st; reflexivity).
  exists m. split; [subst st; exact Hm|]. cbv zeta.
  split; [lia|]. split.
  - pose proof (Z.mod_pos_bound (now + m * 60000) 1000 ltac:(lia)) as Hmod.
    pose proof (Z.div_mod (now + m * 60000) 1000 ltac:(lia)) as Hdiv.
    lia.
  - intros Hsafe token Hsign. rewrite <- Hp in Hv.
    apply integer_is_number in Hm as (q & Hn & Hq).
    rewrite (direct_authenticate_run _ _ _ _ _ _ _ Hv Hn), Hvalid, Hs.
    rewrite (issued_exact _ _ _ _ _ _ _ Hq) by (try rewrite Z.abs_eq; lia).
    now rewrite Hsign.
Qed.

Lemma direct_token_issued_witness :
  DirectApi.authenticate Sample.env 500 (VStr "ann") (VStr "pw") Sample.direct_configured
  = (Returned (Fulfilled (VObj [("token", Sample.token); ("expires", Int 300500)])),
     Sample.direct_configured).
Proof.
  destruct (direct_token_issued Sample.env Sample.secret Sample.path Sample.lifetime_5
              handle DirectApi.unconfigured Sample.direct_configured 500
              (VStr "ann") (VStr "pw") (VBool true) eq_refl eq_refl eq_refl
              ltac:(easy))
    as (minutes & Hm & _ & _ & Hrun).
  injection Hm as <-.
  apply Hrun; [easy|reflexivity].
Defined.

(** X13. The password reaches nothing but the collaborator: two calls of
    [authenticate] for the same user, at the same time, whose passwords get
    verdicts of the same truth value settle in the same way, token
    included. *)
Theorem password_only_decides (env : collaborators) (now : Z) (u pw pw' v v' : value)
    (st : DirectApi.state) :
  validateCredentials env u pw (DirectApi._userStoreFilePath st) = Fulfilled v ->
  validateCredentials env u pw' (DirectApi._userStoreFilePath st) = Fulfilled v' ->
  truthy v = truthy v' ->
  DirectApi.authenticate env now u pw st = DirectApi.authenticate env now u pw' st.
Proof.
  intros Hv Hv' Ht.
  unfold DirectApi.authenticate, new_Promise, bind, read.
  now rewrite Hv, Hv', Ht.
Qed.

Lemma password_only_decides_witness :
  DirectApi.authenticate Sample.env 7 (VStr "ann") (VStr "guess") Sample.direct_configured
  = DirectApi.authenticate Sample.env 7 (VStr "ann") (VStr "") Sample.direct_configured.
Proof.
  apply (password_only_decides Sample.env 7 (VStr "ann") (VStr "guess") (VStr "")
           (VBool false) (VBool false)); reflexivity.
Defined.

Lemma verified_expired (j : Jwt.lib) (secret token claims : value) (now : Z) :
  Jwt.decode j token = Some claims ->
  Jwt.signature_ok j token secret = true ->
  Jwt.exp_ok claims now = false ->
  verified j secret now token
  = Rejected (set_property Jwt.TokenExpiredError "code" (Int 401)).
Proof.
  intros Hd Hs He. unfold verified, Jwt.verify. now rewrite Hd, Hs, He.
Qed.

(** X14. With a signing library that meets the contract, the token
    [authenticate] issues is accepted by [authorize] at every time up to one
    second before [expires], with the user name as subject, and from
    [expires] on it is rejected as expired, with code 401; [expires] is the
    current time plus the lifetime in milliseconds, for a current time that
    is not negative and a sum of at most 2^53, where the arithmetic on
    doubles is exact. *)
Theorem token_validity_window (env : collaborators) (key : string)
    (path options h : value) (st0 st : DirectApi.state) (now minutes : Z)
    (u : string) (pw valid : value) :
  jwt_contract (jwt env) ->
  key <> "" ->
  DirectApi.auth (VStr key) path options st0 = (Returned h, st) ->
  validateCredentials env (VStr u) pw path = Fulfilled valid ->
  truthy valid = true ->
  integer_value (js_or (prop options "tokenExpirationMinutes") (Int 60)) = Some minutes ->
  0 <= now ->
  now + minutes * 60000 <= safe ->
  exists token expires,
    expires = now + minutes * 60000 /\
    DirectApi.authenticate env now (VStr u) pw st
    = (Returned (Fulfilled (VObj [("token", VStr token); ("expires", Int expires)])), st) /\
    (forall now',
        now' + 1000 <= expires ->
        exists claims,
          DirectApi.authorize env now' (VStr token) st = (Returned (Fulfilled claims), st) /\
          prop claims "sub" = VStr u) /\
    (forall now',
        expires <= now' ->
        exists e,
          DirectApi.authorize env now' (VStr token) st = (Returned (Rejected e), st) /\
          prop e "code" = Int 401 /\
          prop e "name" = VStr "TokenExpiredError").
Proof.
  intros Hjwt Hkey Hauth Hv Hvalid Hminutes Hnow Hsafe.
  apply direct_auth_returned in Hauth as (_ & Hst & m & Hm & Hge).
  assert (Hp : DirectApi._userStoreFilePath st = path) by (subst st; reflexivity).
  assert (Hs : DirectApi._secret st = VStr key) by (subst st; reflexivity).
  assert (m = minutes) as ->.
  { subst st. cbn [DirectApi._tokenExpirationMinutes] in Hm. congruence. }
  rewrite <- Hp in Hv.
  apply integer_is_number in Hm as (q & Hn & Hq).
  rewrite (direct_authenticate_run _ _ _ _ _ _ _ Hv Hn), Hvalid, Hs.
  cbn [negb].
  rewrite (issued_exact _ _ _ _ _ _ _ Hq) by (try rewrite Z.abs_eq; lia).
  set (expires := now + minutes * 60000).
  set (payload := VObj [("exp", Int (expires / 1000)); ("sub", VStr u)]).
  destruct (sign_returns _ Hjwt payload key (expires / 1000) u Hkey eq_refl eq_refl)
    as (token & Hsign).
  rewrite Hsign. cbn [resolve].
  destruct (sign_decode _ Hjwt payload key token (expires / 1000) u Hsign eq_refl eq_refl)
    as (claims & Hdec & Hexp & Hsub).
  pose proof (sign_signature_ok _ Hjwt _ _ _ Hsign) as Hsig.
  exists token, expires. split; [reflexivity|split; [reflexivity|split]].
  - intros now' Hnow'. exists claims. split; [|exact Hsub].
    rewrite direct_authorize_run, Hs. f_equal. f_equal.
    apply verified_fulfilled. split; [exact Hdec|split; [exact Hsig|]].
    rewrite (exp_ok_Int _ _ _ Hexp). apply Z.ltb_lt.
    assert (H : now' / 1000 + 1 <= expires / 1000).
    { rewrite <- (Z.div_add now' 1 1000) by lia. apply Z.div_le_mono; lia. }
    lia.
  - intros now' Hnow'.
    exists (set_property Jwt.TokenExpiredError "code" (Int 401)).
    split; [|split; reflexivity].
    rewrite direct_authorize_run, Hs. f_equal. f_equal.
    apply (verified_expired _ _ _ claims); [exact Hdec|exact Hsig|].
    rewrite (exp_ok_Int _ _ _ Hexp). apply Z.ltb_ge.
    apply Z.div_le_mono; lia.
Qed.

Lemma token_validity_window_witness :
  exists token expires,
    expires = 0 + 5 * 60000 /\
    DirectApi.authenticate Sample.env 0 (VStr "ann") (VStr "pw") Sample.direct_configured
    = (Returned (Fulfilled (VObj [("token", VStr token); ("expires", Int expires)])),
       Sample.direct_configured) /\
    (forall now',
        now' + 1000 <= expires ->
        exists claims,
          DirectApi.authorize Sample.env now' (VStr token) Sample.direct_configured
          = (Returned (Fulfilled claims), Sample.direct_configured) /\
          prop claims "sub" = VStr "ann") /\
    (forall now',
        expires <= now' ->
        exists e,
          DirectApi.authorize Sample.env now' (VStr token) Sample.direct_configured
          = (Returned (Rejected e), Sample.direct_configured) /\
          prop e "code" = Int 401 /\
          prop e "name" = VStr "TokenExpiredError").
Proof.
  apply (token_validity_window Sample.env "s3cret" Sample.path Sample.lifetime_5 handle
           DirectApi.unconfigured Sample.direct_configured 0 5 "ann" (VStr "pw")
           (VBool true)).
  - exact reference_contract.
  - discriminate.
  - reflexivity.
  - reflexivity.
  - reflexivity.
  - reflexivity.
  - easy.
  - easy.
Defined.

Lemma direct_auth_secret (secret path options : value) (st0 : DirectApi.state) :
  accepted_path path = true ->
  DirectApi._secret (snd (DirectApi.auth secret path options st0)) = secret.
Proof.
  intros Hpath. destruct (null_or_not options) as [->|Hnull].
  - now rewrite direct_auth_null by assumption.
  - rewrite direct_auth_run by assumption. cbv zeta.
    destruct (integer_at_least_5 _); reflexivity.
Qed.

(** X15. Calling [auth] again with another secret, and a path [fs.stat]
    takes (a string without null byte), revokes every token issued under the
    old one, whether that [auth] then returns or throws: with a signing
    library that meets the contract, [authorize] rejects such a token with
    code 401 at any time.  On a path [fs.stat] refuses, [auth] changes
    nothing, the secret included. *)
Theorem new_secret_revokes_tokens (env : collaborators) (key key' : string)
    (payload path options : value) (token : string) (st : DirectApi.state) (now : Z) :
  jwt_contract (jwt env) ->
  Jwt.sign (jwt env) payload (VStr key) = Jwt.Signed token ->
  key <> key' ->
  (accepted_path path = true ->
   exists e,
     DirectApi.authorize env now (VStr token)
       (snd (DirectApi.auth (VStr key') path options st))
     = (Returned (Rejected e), snd (DirectApi.auth (VStr key') path options st)) /\
     prop e "code" = Int 401) /\
  (accepted_path path = false ->
   exists e,
     DirectApi.auth (VStr key') path options st = (Thrown e, st) /\
     prop e "name" = VStr "TypeError").
Proof.
  intros Hjwt Hsign Hne. split; intros Hpath.
  - rewrite direct_authorize_run, direct_auth_secret by assumption.
    destruct (verified_rejected (jwt env) (VStr key') (VStr token) now)
      as (e & He & Hcode).
    + intros claims Hc. apply verified_fulfilled in Hc as (_ & Hsig & _).
      rewrite (other_secret_rejected _ Hjwt _ _ _ _ Hsign Hne) in Hsig. discriminate.
    + exists e. now rewrite He.
  - rewrite direct_auth_refused by assumption.
    destruct path; try discriminate; eexists; split; reflexivity.
Qed.

Lemma new_secret_revokes_tokens_witness :
  exists e,
    DirectApi.authorize Sample.env 0 Sample.token
      (snd (DirectApi.auth (VStr "rotated") Sample.path VUndefined Sample.direct_configured))
    = (Returned (Rejected e),
       snd (DirectApi.auth (VStr "rotated") Sample.path VUndefined Sample.direct_configured))
    /\ prop e "code" = Int 401.
Proof.
  destruct (new_secret_revokes_tokens Sample.env "s3cret" "rotated"
              (VObj [("exp", Int 300); ("sub", VStr "ann")]) Sample.path VUndefined
              (ReferenceJwt.token_text (VObj [("exp", Int 300); ("sub", VStr "ann")])
                 "s3cret")
              Sample.direct_configured 0) as (H & _).
  - exact reference_contract.
  - reflexivity.
  - discriminate.
  - apply H. reflexivity.
Defined.
